(** * Knowledge retrieval and deduplication core of atti-agent-template

    Shallow embedding of [knowledge_loader_v2_1_0.py] ([KnowledgeLoader])
    and of [dynamic_updates/delta_detector.py] ([DeltaDetector]).

    Modelling conventions.
    - Python [str] values are ASCII strings ([String.string]); on ASCII text
      [.encode('utf-8')] is the identity, so a file's bytes are a string too.
    - Python [float] values (scores, priorities, weights, similarity ratios)
      are exact rationals [Q]; NaN and infinities are not modelled.
    - A Python [dict] is an association list kept in insertion order, with
      [dict_set] replacing the value of an existing key in place and
      appending a new key at the end, as CPython's dict does.
    - [hashlib.sha256] and [difflib.SequenceMatcher.ratio] are executable
      definitions below, so that every statement can be evaluated. *)

Set Warnings "-notation-overridden".
From Stdlib Require Import String Ascii ZArith QArith Bool.
From mathcomp Require Import ssreflect ssrbool ssrfun eqtype ssrnat seq path.

Set Implicit Arguments.
Unset Strict Implicit.
Unset Printing Implicit Defensive.

Local Open Scope nat_scope.
Local Open Scope string_scope.

(* ------------------------------------------------------------------ *)
(** ** hashlib.sha256(...).hexdigest() *)
(* ------------------------------------------------------------------ *)

Module Sha256.
Local Open Scope Z_scope.

Definition mask32 : Z := 4294967295.
Definition add32 (x y : Z) : Z := Z.land (x + y) mask32.
Definition rotr (x : Z) (n : Z) : Z :=
  Z.land (Z.lor (Z.shiftr x n) (Z.shiftl x (32 - n))) mask32.
Definition shr (x : Z) (n : Z) : Z := Z.shiftr x n.

Definition ch (e f g : Z) : Z := Z.lxor (Z.land e f) (Z.land (Z.lxor e mask32) g).
Definition maj (a b c : Z) : Z :=
  Z.lxor (Z.lxor (Z.land a b) (Z.land a c)) (Z.land b c).
Definition bsig0 (a : Z) : Z := Z.lxor (Z.lxor (rotr a 2) (rotr a 13)) (rotr a 22).
Definition bsig1 (e : Z) : Z := Z.lxor (Z.lxor (rotr e 6) (rotr e 11)) (rotr e 25).
Definition ssig0 (w : Z) : Z := Z.lxor (Z.lxor (rotr w 7) (rotr w 18)) (shr w 3).
Definition ssig1 (w : Z) : Z := Z.lxor (Z.lxor (rotr w 17) (rotr w 19)) (shr w 10).

Definition K : list Z :=
  [:: 1116352408; 1899447441; 3049323471; 3921009573; 961987163; 1508970993;
      2453635748; 2870763221; 3624381080; 310598401; 607225278; 1426881987;
      1925078388; 2162078206; 2614888103; 3248222580; 3835390401; 4022224774;
      264347078; 604807628; 770255983; 1249150122; 1555081692; 1996064986;
      2554220882; 2821834349; 2952996808; 3210313671; 3336571891; 3584528711;
      113926993; 338241895; 666307205; 773529912; 1294757372; 1396182291;
      1695183700; 1986661051; 2177026350; 2456956037; 2730485921; 2820302411;
      3259730800; 3345764771; 3516065817; 3600352804; 4094571909; 275423344;
      430227734; 506948616; 659060556; 883997877; 958139571; 1322822218;
      1537002063; 1747873779; 1955562222; 2024104815; 2227730452; 2361852424;
      2428436474; 2756734187; 3204031479; 3329325298].

Definition H0 : list Z :=
  [:: 1779033703; 3144134277; 1013904242; 2773480762; 1359893119; 2600822924;
      528734635; 1541459225].

Definition bytes_of_string (s : string) : list Z :=
  map (fun c => Z.of_nat (nat_of_ascii c)) (list_ascii_of_string s).

(** Padding: 0x80, zeros up to 56 mod 64, then the bit length on 8 bytes. *)
Definition be_bytes (n : nat) (x : Z) : list Z :=
  map (fun i => Z.land (Z.shiftr x (8 * Z.of_nat (n - 1 - i)%N)) 255) (iota 0 n).

Definition pad (msg : list Z) : list Z :=
  let l := size msg in
  let zeros := Nat.modulo (119 - Nat.modulo l 64) 64 in
  msg ++ [:: 128] ++ nseq zeros 0 ++ be_bytes 8 (8 * Z.of_nat l).

Fixpoint words_of (bs : list Z) : list Z :=
  match bs with
  | b0 :: b1 :: b2 :: b3 :: rest =>
      (b0 * 16777216 + b1 * 65536 + b2 * 256 + b3) :: words_of rest
  | _ => [::]
  end.

(** Message schedule, built oldest-first: w[t] from w[t-2], w[t-7], w[t-15], w[t-16]. *)
Fixpoint extend (fuel : nat) (w : list Z) : list Z :=
  match fuel with
  | O => w
  | S f =>
      let t := size w in
      let wt := add32 (add32 (ssig1 (nth 0 w (t - 2)%N)) (nth 0 w (t - 7)%N))
                      (add32 (ssig0 (nth 0 w (t - 15)%N)) (nth 0 w (t - 16)%N)) in
      extend f (rcons w wt)
  end.

Definition round (st : list Z) (kw : Z * Z) : list Z :=
  match st with
  | [:: a; b; c; d; e; f; g; h] =>
      let t1 := add32 (add32 (add32 h (bsig1 e)) (add32 (ch e f g) kw.1)) kw.2 in
      let t2 := add32 (bsig0 a) (maj a b c) in
      [:: add32 t1 t2; a; b; c; add32 d t1; e; f; g]
  | _ => st
  end.

Definition compress (hs : list Z) (block : list Z) : list Z :=
  let w := extend 48 (words_of block) in
  let st := foldl round hs (zip K w) in
  map (fun p => add32 p.1 p.2) (zip hs st).

Fixpoint chunks (fuel : nat) (bs : list Z) : list (list Z) :=
  match fuel with
  | O => [::]
  | S f => match bs with
           | [::] => [::]
           | _ => take 64 bs :: chunks f (drop 64 bs)
           end
  end.

Definition hex_digit (n : Z) : ascii :=
  if (n <? 10)%Z then ascii_of_nat (48 + Z.to_nat n)%N
  else ascii_of_nat (87 + Z.to_nat n)%N.

Definition hex_word (x : Z) : string :=
  string_of_list_ascii
    (map (fun i => hex_digit (Z.land (Z.shiftr x (4 * Z.of_nat (7 - i)%N)) 15))
         (iota 0 8)).

Definition hexdigest (s : string) : string :=
  let p := pad (bytes_of_string s) in
  let hs := foldl compress H0 (chunks (size p) p) in
  foldr String.append "" (map hex_word hs).

End Sha256.

(* ------------------------------------------------------------------ *)
(** ** Python built-ins used by the two classes *)
(* ------------------------------------------------------------------ *)

Module Py.

(** [str.lower()] on ASCII. *)
Definition lower_char (c : ascii) : ascii :=
  let n := nat_of_ascii c in
  if (65 <= n) && (n <= 90) then ascii_of_nat (n + 32) else c.

Fixpoint lower (s : string) : string :=
  match s with
  | EmptyString => EmptyString
  | String c s' => String (lower_char c) (lower s')
  end.

(** [str.isspace()] on ASCII: \t \n \v \f \r, the separators 0x1c-0x1f, space. *)
Definition isspace (c : ascii) : bool :=
  let n := nat_of_ascii c in
  ((9 <= n) && (n <= 13)) || ((28 <= n) && (n <= 32)).

Fixpoint lstrip (s : string) : string :=
  match s with
  | EmptyString => EmptyString
  | String c s' => if isspace c then lstrip s' else s
  end.

Definition rev_string (s : string) : string :=
  string_of_list_ascii (rev (list_ascii_of_string s)).

(** [str.strip()] with no argument. *)
Definition strip (s : string) : string := rev_string (lstrip (rev_string (lstrip s))).

(** [str.strip(chars)]. *)
Fixpoint lstrip_chars (cs : list ascii) (s : string) : string :=
  match s with
  | EmptyString => EmptyString
  | String c s' => if has (Ascii.eqb c) cs then lstrip_chars cs s' else s
  end.

Definition strip_chars (cs : list ascii) (s : string) : string :=
  rev_string (lstrip_chars cs (rev_string (lstrip_chars cs s))).

(** [str.split()] with no argument: runs of whitespace separate, no empty words. *)
Fixpoint split_acc (s : string) (cur : string) : list string :=
  match s with
  | EmptyString => if cur is EmptyString then [::] else [:: cur]
  | String c s' =>
      if isspace c then
        cat (if cur is EmptyString then [::] else [:: cur]) (split_acc s' EmptyString)
      else split_acc s' (cur ++ String c EmptyString)
  end.

Definition split (s : string) : list string := split_acc s EmptyString.

(** [sep.join(xs)]. *)
Fixpoint join (sep : string) (xs : list string) : string :=
  match xs with
  | [::] => EmptyString
  | [:: x] => x
  | x :: xs' => x ++ sep ++ join sep xs'
  end.

(** [sub in s]. *)
Fixpoint contains (sub s : string) : bool :=
  String.prefix sub s ||
  match s with
  | EmptyString => false
  | String _ s' => contains sub s'
  end.

(** [s.count(sub)]: non-overlapping occurrences; [len(s) + 1] for [sub = ""]. *)
Fixpoint count_nonempty (fuel : nat) (sub s : string) : nat :=
  match fuel with
  | O => 0
  | S f =>
      match s with
      | EmptyString => 0
      | String _ s' =>
          if String.prefix sub s then 1 + count_nonempty f sub (substring (String.length sub) (String.length s) s)
          else count_nonempty f sub s'
      end
  end.

Definition count (s sub : string) : nat :=
  if sub is EmptyString then String.length s + 1
  else count_nonempty (String.length s) sub s.

(** [list(set(xs))] keeps one copy of each element; Python's set order is
    hash-dependent, here it is first-occurrence order. *)
Fixpoint dedup_from (seen : list string) (xs : list string) : list string :=
  match xs with
  | [::] => [::]
  | x :: xs' =>
      if has (String.eqb x) seen then dedup_from seen xs'
      else x :: dedup_from (x :: seen) xs'
  end.

Definition dedup (xs : list string) : list string := dedup_from [::] xs.

(** [xs[:n]] for a Python int [n] (negative [n] drops the last [-n] items). *)
Definition slice_to {A} (xs : list A) (n : Z) : list A :=
  if (0 <=? n)%Z then take (Z.to_nat n) xs
  else take (size xs - Z.to_nat (- n)) xs.

(** A [dict] with string keys: insertion-ordered association list. *)
Fixpoint dict_get {V} (d : list (string * V)) (k : string) : option V :=
  match d with
  | [::] => None
  | (k', v) :: d' => if String.eqb k k' then Some v else dict_get d' k
  end.

Fixpoint dict_set {V} (d : list (string * V)) (k : string) (v : V) : list (string * V) :=
  match d with
  | [::] => [:: (k, v)]
  | (k', v') :: d' => if String.eqb k k' then (k', v) :: d' else (k', v') :: dict_set d' k v
  end.

Definition dict_values {V} (d : list (string * V)) : list V := map snd d.

End Py.

(** [x < y] on floats, here on [Q]. *)
Definition Qlt_bool (x y : Q) : bool := negb (Qle_bool y x).

(** The order of [sorted(xs, key=key, reverse=True)]: the result is
    non-increasing in [key], and as Python's sort is stable, items with
    equal keys keep their input order. *)
Definition desc_by {T} (key : T -> Q) : rel T := fun a b => Qle_bool (key b) (key a).

(** The items whose key equals [q]. *)
Definition key_is {T} (key : T -> Q) (q : Q) : pred T := fun x => Qeq_bool (key x) q.

(* ------------------------------------------------------------------ *)
(** ** KnowledgeLoader (knowledge_loader_v2_1_0.py) *)
(* ------------------------------------------------------------------ *)

Module Loader.

(** A knowledge block: a JSON object read with [.get(key, default)], so
    every field may be absent. *)
Record block := mk_block {
  block_id : option string;                       (* "id" *)
  conteudo : option string;
  nivel_complexidade : option string;
  persona_alvo : option string;
  tags : option (list string);
  regulatory_flag : option bool;
  embedding_priority : option Q;
  retrieval_weight : option Q;
  vector_ready : option bool;
  cross_package_reference : option (list string);
  knowledge_version : option string;
  categoria_macro : option string;
  subcategoria : option string
}.

(** A package file's JSON: only [knowledge_blocks] is read by the loader. *)
Record package := mk_package { knowledge_blocks : option (list block) }.

(** [package.get("knowledge_blocks", [])]. *)
Definition pkg_blocks (p : package) : list block := odflt [::] (knowledge_blocks p).

(** A descriptor of the manifest's [packages] list. *)
Record pkg_meta := mk_meta {
  segmento : string;
  file : string;
  hash_integridade : string
}.

(** A file on disk: its bytes (hashed by [_validate_hash]) and what
    [json.load] makes of them ([None]: the file is not valid JSON). *)
Record disk_file := mk_file {
  file_bytes : string;
  file_json : option package
}.

(** The files under [base_path]: the manifest (already decoded, its
    [packages] list; [None]: the file does not exist) and the package files
    keyed by their path relative to [base_path]. *)
Record disk := mk_disk {
  disk_manifest : option (list pkg_meta);
  disk_files : list (string * disk_file)
}.

(** The attributes of a [KnowledgeLoader] instance. *)
Record loader := mk_loader {
  validate_integrity : bool;
  _manifest : option (list pkg_meta);
  _packages : list (string * package);
  _blocks_cache : option (list block)
}.

(** [KnowledgeLoader(base_path, validate_integrity, auto_load=False)]. *)
Definition init_loader (vi : bool) : loader := mk_loader vi None [::] None.

Inductive kl_message :=
| ManifestNotFound
| PackageFileNotFound (path : string)
| SegmentNotInManifest (segment : string) (available : list string).

(** The exceptions the methods can raise. *)
Inductive py_exc :=
| KnowledgeLoaderError (msg : kl_message)
| IntegrityError (segment expected actual : string)
| FileNotFoundError (path : string)
| JSONDecodeError (path : string)
| KeyError (key : string).

(** Every assignment to an attribute of the loader, in program order. *)
Inductive write_ev :=
| WManifest (m : list pkg_meta)
| WPackage (segment : string) (p : package)
| WBlocksCache (c : option (list block))
| WManifestReset
| WPackagesReset.

Inductive outcome (A : Type) :=
| Ok (a : A)
| Raise (e : py_exc).
Arguments Ok {A} a.
Arguments Raise {A} e.

(** A method: reads the disk, updates the loader, logs its assignments,
    and returns or raises.  On a raise the assignments made so far stay. *)
Definition M (A : Type) := disk -> loader -> loader * list write_ev * outcome A.

Definition ret {A} (a : A) : M A := fun _ st => (st, [::], Ok a).
Definition raise {A} (e : py_exc) : M A := fun _ st => (st, [::], Raise e).
Definition bind {A B} (m : M A) (k : A -> M B) : M B :=
  fun d st =>
    match m d st with
    | (st1, w1, Ok a) =>
        match k a d st1 with (st2, w2, r) => (st2, cat w1 w2, r) end
    | (st1, w1, Raise e) => (st1, w1, Raise e)
    end.

Notation "x <- m ;; k" := (bind m (fun x => k))
  (at level 61, m at next level, right associativity).
Notation "m ;; k" := (bind m (fun _ => k)) (at level 61, right associativity).

Definition gets {A} (f : loader -> A) : M A := fun _ st => (st, [::], Ok (f st)).
Definition ask_disk : M disk := fun d st => (st, [::], Ok d).

Definition set_manifest (m : list pkg_meta) : M unit :=
  fun _ st =>
    (mk_loader (validate_integrity st) (Some m) (_packages st) (_blocks_cache st),
     [:: WManifest m], Ok tt).

(** [self._packages[segment] = package]. *)
Definition set_package (segment : string) (p : package) : M unit :=
  fun _ st =>
    (mk_loader (validate_integrity st) (_manifest st)
               (Py.dict_set (_packages st) segment p) (_blocks_cache st),
     [:: WPackage segment p], Ok tt).

(** [self._blocks_cache = c]. *)
Definition set_blocks_cache (c : option (list block)) : M unit :=
  fun _ st =>
    (mk_loader (validate_integrity st) (_manifest st) (_packages st) c,
     [:: WBlocksCache c], Ok tt).

(** [_load_manifest]. *)
Definition _load_manifest : M (list pkg_meta) :=
  d <- ask_disk ;;
  match disk_manifest d with
  | Some m => ret m
  | None => raise (KnowledgeLoaderError ManifestNotFound)
  end.

(** The [manifest] property: read once, then cached. *)
Definition manifest : M (list pkg_meta) :=
  cached <- gets _manifest ;;
  match cached with
  | Some m => ret m
  | None => m <- _load_manifest ;; set_manifest m ;; ret m
  end.

(** [pkg_path.exists()]. *)
Definition path_exists (path : string) : M bool :=
  d <- ask_disk ;; ret (isSome (Py.dict_get (disk_files d) path)).

(** [open(path)]: raises [FileNotFoundError] when the file is absent. *)
Definition open_file (path : string) : M disk_file :=
  d <- ask_disk ;;
  match Py.dict_get (disk_files d) path with
  | Some f => ret f
  | None => raise (FileNotFoundError path)
  end.

(** [json.load(open(path))]. *)
Definition json_load (path : string) : M package :=
  f <- open_file path ;;
  match file_json f with
  | Some p => ret p
  | None => raise (JSONDecodeError path)
  end.

(** [_validate_hash]: SHA256 of the file's bytes against the manifest. *)
Definition _validate_hash (path expected_hash segment : string) : M unit :=
  f <- open_file path ;;
  let actual := Sha256.hexdigest (file_bytes f) in
  if String.eqb actual expected_hash then ret tt
  else raise (IntegrityError segment expected_hash actual).

(** The body of the [for pkg_meta in ...] loop of [load_all_packages]. *)
Fixpoint load_all_loop (metas : list pkg_meta) : M unit :=
  match metas with
  | [::] => ret tt
  | pkg_meta :: rest =>
      let segment := segmento pkg_meta in
      let pkg_path := file pkg_meta in
      ex <- path_exists pkg_path ;;
      if negb ex then raise (KnowledgeLoaderError (PackageFileNotFound pkg_path))
      else
        vi <- gets validate_integrity ;;
        (if vi then _validate_hash pkg_path (hash_integridade pkg_meta) segment
         else ret tt) ;;
        package <- json_load pkg_path ;;
        set_package segment package ;;
        load_all_loop rest
  end.

(** [load_all_packages]. *)
Definition load_all_packages : M (list (string * package)) :=
  set_blocks_cache None ;;
  m <- manifest ;;
  load_all_loop m ;;
  gets _packages.

(** [list_segments]. *)
Definition list_segments : M (list string) :=
  m <- manifest ;; ret (map segmento m).

(** The loop of [load_package] over the manifest's descriptors. *)
Fixpoint load_package_loop (segment : string) (metas : list pkg_meta) : M package :=
  match metas with
  | [::] =>
      available <- list_segments ;;
      raise (KnowledgeLoaderError (SegmentNotInManifest segment available))
  | pkg_meta :: rest =>
      if String.eqb (segmento pkg_meta) segment then
        pk <- gets _packages ;;
        (if isSome (Py.dict_get pk segment) then ret tt
         else
           let pkg_path := file pkg_meta in
           vi <- gets validate_integrity ;;
           (if vi then _validate_hash pkg_path (hash_integridade pkg_meta) segment
            else ret tt) ;;
           p <- json_load pkg_path ;;
           set_package segment p ;;
           set_blocks_cache None) ;;
        pk' <- gets _packages ;;
        match Py.dict_get pk' segment with
        | Some p => ret p
        | None => raise (KeyError segment)
        end
      else load_package_loop segment rest
  end.

(** [load_package(segment)]. *)
Definition load_package (segment : string) : M package :=
  m <- manifest ;; load_package_loop segment m.

(** The flat list [_all_blocks] builds from the package cache. *)
Definition flat_blocks (pk : list (string * package)) : list block :=
  flatten (map (fun kv => pkg_blocks kv.2) pk).

(** [_all_blocks]. *)
Definition _all_blocks : M (list block) :=
  c <- gets _blocks_cache ;;
  match c with
  | Some bs => ret bs
  | None =>
      pk <- gets _packages ;;
      let bs := flat_blocks pk in
      set_blocks_cache (Some bs) ;;
      ret bs
  end.

(** [get_blocks_by_segment(segment)]. *)
Definition get_blocks_by_segment (segment : string) : M (list block) :=
  pk <- gets _packages ;;
  (if isSome (Py.dict_get pk segment) then ret tt
   else load_package segment ;; ret tt) ;;
  pk' <- gets _packages ;;
  match Py.dict_get pk' segment with
  | Some p => ret (pkg_blocks p)
  | None => raise (KeyError segment)
  end.

(** [source = self.get_blocks_by_segment(segment) if segment else self._all_blocks()]. *)
Definition query_source (segment : option string) : M (list block) :=
  match segment with
  | Some s => if String.eqb s "" then _all_blocks else get_blocks_by_segment s
  | None => _all_blocks
  end.

(** [float(b.get("embedding_priority", 0))]. *)
Definition priority (b : block) : Q := odflt 0%Q (embedding_priority b).

(** [sorted(source, key=priority, reverse=True)] is [sort priority_desc]. *)
Definition priority_desc : rel block := desc_by priority.

(** [get_top_blocks_by_priority(n, segment)]. *)
Definition get_top_blocks_by_priority (n : Z) (segment : option string) : M (list block) :=
  source <- query_source segment ;;
  ret (Py.slice_to (sort priority_desc source) n).

(** The relevance score computed in the loop of [search_blocks]. *)
Definition block_score (query : string) (block : block) : Q :=
  let query_lower := Py.lower query in
  let query_terms := Py.dedup (Py.split query_lower) in
  let content := Py.lower (odflt "" (conteudo block)) in
  let tags_s := Py.lower (Py.join " " (odflt [::] (tags block))) in
  let subcat := Py.lower (odflt "" (subcategoria block)) in
  let combined := content ++ " " ++ tags_s ++ " " ++ subcat in
  let score0 := if Py.contains query_lower combined then 2%Q else 0%Q in
  let score1 :=
    foldl (fun score term =>
             Qplus score (Qmult (inject_Z (Z.of_nat (Py.count combined term))) (1 # 10)))
          score0 query_terms in
  Qmult score1 (odflt (7 # 10) (retrieval_weight block)).

(** [scored.sort(key=lambda x: x[0], reverse=True)]. *)
Definition score_desc : rel (Q * block) := desc_by (fun x => x.1).

(** [search_blocks(query, segment, top_k)]. *)
Definition search_blocks (query : string) (segment : option string) (top_k : Z)
  : M (list block) :=
  source <- query_source segment ;;
  let scored := filter (fun x => Qlt_bool 0 x.1)
                       (map (fun b => (block_score query b, b)) source) in
  let ranked := sort score_desc scored in
  ret (map snd (Py.slice_to ranked top_k)).

(** The [metadata] object of a vector document. *)
Record metadata := mk_metadata {
  md_segment : string;
  md_subcategoria : string;
  md_nivel_complexidade : string;
  md_persona_alvo : string;
  md_tags : list string;
  md_embedding_priority : Q;
  md_retrieval_weight : Q;
  md_regulatory_flag : bool;
  md_cross_package_reference : list string;
  md_knowledge_version : string
}.

(** A document [{"id", "text", "metadata"}]. *)
Record vector_doc := mk_doc {
  doc_id : string;
  doc_text : string;
  doc_metadata : metadata
}.

(** The [doc] dict built for a block whose ["id"] is [i]. *)
Definition make_doc (i : string) (block : block) : vector_doc :=
  mk_doc i (odflt "" (conteudo block))
    (mk_metadata
       (odflt "" (categoria_macro block))
       (odflt "" (subcategoria block))
       (odflt "" (nivel_complexidade block))
       (odflt "" (persona_alvo block))
       (odflt [::] (tags block))
       (odflt (1 # 2) (embedding_priority block))
       (odflt (7 # 10) (retrieval_weight block))
       (odflt false (regulatory_flag block))
       (odflt [::] (cross_package_reference block))
       (odflt "2.1.0" (knowledge_version block))).

(** The loop of [prepare_for_vectorization]; [block["id"]] raises
    [KeyError] on a vector-ready block without an id. *)
Fixpoint vector_docs (source : list block) : outcome (list vector_doc) :=
  match source with
  | [::] => Ok [::]
  | block :: rest =>
      if negb (odflt false (vector_ready block)) then vector_docs rest
      else
        match block_id block with
        | None => Raise (KeyError "id")
        | Some i =>
            match vector_docs rest with
            | Ok docs => Ok (make_doc i block :: docs)
            | Raise e => Raise e
            end
        end
  end.

Definition lift {A} (r : outcome A) : M A :=
  match r with
  | Ok a => ret a
  | Raise e => raise e
  end.

(** [prepare_for_vectorization(segment)]. *)
Definition prepare_for_vectorization (segment : option string) : M (list vector_doc) :=
  source <- query_source segment ;;
  lift (vector_docs source).

(** The three assignments at the start of [reload]. *)
Definition reset_caches : M unit :=
  fun _ st => (mk_loader (validate_integrity st) None [::] None,
               [:: WManifestReset; WPackagesReset; WBlocksCache None], Ok tt).

(** [reload]. *)
Definition reload : M unit :=
  bind reset_caches (fun _ => bind load_all_packages (fun _ => ret tt)).

End Loader.

(* ------------------------------------------------------------------ *)
(** ** difflib.SequenceMatcher(None, a, b).ratio() *)
(* ------------------------------------------------------------------ *)

(** [isjunk] is [None], so [bjunk] is empty and the two junk-extension
    loops of [find_longest_match] never run; [autojunk] is on, so when
    [len(b) >= 200] the characters occurring more than [len(b)//100 + 1]
    times are "popular" and left out of [b2j]. *)
Module Difflib.

Definition char_at (s : list ascii) (i : nat) : ascii := nth Ascii.zero s i.

Definition popular (b : list ascii) (c : ascii) : bool :=
  let n := size b in (200 <= n) && (Nat.div n 100 + 1 < count (Ascii.eqb c) b).

(** [b2j.get(c, [])]: the positions of [c] in [b], ascending. *)
Definition b2j (b : list ascii) (c : ascii) : list nat :=
  if popular b c then [::]
  else filter (fun j => Ascii.eqb (char_at b j) c) (iota 0 (size b)).

Fixpoint nat_lookup (m : list (nat * nat)) (k : nat) : option nat :=
  match m with
  | [::] => None
  | (k', v) :: m' => if k == k' then Some v else nat_lookup m' k
  end.

(** The inner loop [for j in b2j.get(a[i], nothing)] of [find_longest_match]. *)
Fixpoint scan_j (i blo bhi : nat) (j2len : list (nat * nat)) (js : list nat)
    (newj2len : list (nat * nat)) (best : nat * nat * nat)
    : list (nat * nat) * (nat * nat * nat) :=
  match js with
  | [::] => (newj2len, best)
  | j :: js' =>
      if j < blo then scan_j i blo bhi j2len js' newj2len best
      else if bhi <= j then (newj2len, best)
      else
        let prev := if j is S j1 then odflt 0 (nat_lookup j2len j1) else 0 in
        let k := prev + 1 in
        let best' := if best.2 < k then (i + 1 - k, j + 1 - k, k) else best in
        scan_j i blo bhi j2len js' ((j, k) :: newj2len) best'
  end.

Fixpoint extend_back (fuel : nat) (a b : list ascii) (alo blo : nat)
    (best : nat * nat * nat) : nat * nat * nat :=
  match fuel with
  | O => best
  | S f =>
      let '(i, j, k) := best in
      if (alo < i) && (blo < j) && Ascii.eqb (char_at a (i - 1)) (char_at b (j - 1))
      then extend_back f a b alo blo (i - 1, j - 1, k + 1)
      else best
  end.

Fixpoint extend_fwd (fuel : nat) (a b : list ascii) (ahi bhi : nat)
    (best : nat * nat * nat) : nat * nat * nat :=
  match fuel with
  | O => best
  | S f =>
      let '(i, j, k) := best in
      if (i + k < ahi) && (j + k < bhi) && Ascii.eqb (char_at a (i + k)) (char_at b (j + k))
      then extend_fwd f a b ahi bhi (i, j, k + 1)
      else best
  end.

(** [find_longest_match(alo, ahi, blo, bhi)] as (i, j, size). *)
Definition find_longest_match (a b : list ascii) (alo ahi blo bhi : nat) : nat * nat * nat :=
  let step (acc : list (nat * nat) * (nat * nat * nat)) (i : nat) :=
    scan_j i blo bhi acc.1 (b2j b (char_at a i)) [::] acc.2 in
  let best := (foldl step ([::], (alo, blo, 0)) (iota alo (ahi - alo))).2 in
  extend_fwd (size a) a b ahi bhi (extend_back (size a) a b alo blo best).

(** The sum of the sizes of [get_matching_blocks()]: each longest match
    splits the problem into the parts on its left and on its right. *)
Fixpoint matched (fuel : nat) (a b : list ascii) (alo ahi blo bhi : nat) : nat :=
  match fuel with
  | O => 0
  | S f =>
      let '(i, j, k) := find_longest_match a b alo ahi blo bhi in
      if k == 0 then 0
      else (if (alo < i) && (blo < j) then matched f a b alo i blo j else 0)
           + k
           + (if (i + k < ahi) && (j + k < bhi) then matched f a b (i + k) ahi (j + k) bhi
              else 0)
  end.

(** [ratio()]: [2.0 * matches / (len(a) + len(b))], and [1.0] for two empty strings. *)
Definition ratio (sa sb : string) : Q :=
  let a := list_ascii_of_string sa in
  let b := list_ascii_of_string sb in
  let la := size a in
  let lb := size b in
  if la + lb == 0 then 1%Q
  else (Z.of_nat (2 * matched (la + 1) a b 0 la 0 lb) # Pos.of_nat (la + lb))%Q.

End Difflib.

(* ------------------------------------------------------------------ *)
(** ** DeltaDetector (dynamic_updates/delta_detector.py) *)
(* ------------------------------------------------------------------ *)

Module Delta.

(** A block of a [knowledge_packages/*.json] file (read with [.get]). *)
Record legacy_block := mk_legacy {
  lb_id : option string;
  lb_content : option string;
  lb_title : option string;
  lb_segment : option string
}.

(** A globbed file: [Some blocks] when [json.load] gives a dict with a
    ["blocks"] key, [None] when it does not (or does not parse). *)
Definition legacy_file := option (list legacy_block).

(** A [knowledge_index] entry. *)
Record index_entry := mk_entry {
  ie_content : string;
  ie_title : string;
  ie_segment : string;
  ie_hash : string;
  ie_keywords : list string
}.

(** A [new_content] dict with string values. *)
Definition new_content := list (string * string).

(** [_hash_text]: SHA256 of [text.lower().strip()]. *)
Definition _hash_text (text : string) : string :=
  Sha256.hexdigest (Py.strip (Py.lower text)).

(** [_calculate_similarity]. *)
Definition _calculate_similarity (text1 text2 : string) : Q :=
  if String.eqb text1 "" || String.eqb text2 "" then 0%Q
  else Difflib.ratio (Py.strip (Py.lower text1)) (Py.strip (Py.lower text2)).

Definition stopwords : list string :=
  [:: "o"; "a"; "de"; "do"; "da"; "em"; "para"; "com"; "por"; "que";
      "the"; "is"; "at"; "which"; "on"; "and"; "or"; "an"; "as"; "are"].

Definition strip_punct : list ascii := list_ascii_of_string ".,!?;:".

(** [_extract_keywords(text, top_n)]. *)
Definition _extract_keywords (text : string) (top_n : nat) : list string :=
  let words := Py.split (Py.lower text) in
  let keywords :=
    map (Py.strip_chars strip_punct)
        (filter (fun w => (4 < String.length w)
                          && negb (has (String.eqb (Py.lower w)) stopwords)) words) in
  take top_n (Py.dedup keywords).

(** [_calculate_keyword_overlap]: the source returns [0.0]. *)
Definition _calculate_keyword_overlap (keywords : list string) : Q := 0%Q.

(** The body of the inner loop of [_build_knowledge_index]. *)
Definition index_block (index : list (string * index_entry)) (block : legacy_block)
  : list (string * index_entry) :=
  let block_id := odflt "" (lb_id block) in
  if String.eqb block_id "" then index
  else
    let content := odflt "" (lb_content block) in
    Py.dict_set index block_id
      (mk_entry content (odflt "" (lb_title block)) (odflt "" (lb_segment block))
                (_hash_text content) (_extract_keywords content 10)).

(** [_build_knowledge_index] over the globbed files, in glob order. *)
Definition _build_knowledge_index (files : list legacy_file) : list (string * index_entry) :=
  foldl (fun index f => if f is Some blocks then foldl index_block index blocks else index)
        [::] files.

Record detector := mk_detector {
  knowledge_index : list (string * index_entry);
  similarity_threshold : Q
}.

(** [DeltaDetector(knowledge_base_path)]. *)
Definition init_detector (files : list legacy_file) : detector :=
  mk_detector (_build_knowledge_index files) (85 # 100).

(** [new_content.get("content", "") or new_content.get("text", "")]. *)
Definition content_text (nc : new_content) : string :=
  let c := odflt "" (Py.dict_get nc "content") in
  if String.eqb c "" then odflt "" (Py.dict_get nc "text") else c.

(** [has_significant_changes(new_content)]. *)
Definition has_significant_changes (det : detector) (nc : new_content) : bool :=
  if nc is [::] then false
  else
    let text := content_text nc in
    if String.eqb text "" then false
    else
      let content_hash := _hash_text text in
      let entries := Py.dict_values (knowledge_index det) in
      if has (fun e => String.eqb (ie_hash e) content_hash) entries then false
      else
        let max_similarity :=
          foldl (fun m e => let s := _calculate_similarity text (ie_content e) in
                            if Qlt_bool m s then s else m)
                0%Q entries in
        if Qlt_bool (similarity_threshold det) max_similarity then false
        else
          let new_keywords := _extract_keywords text 10 in
          let keyword_overlap := _calculate_keyword_overlap new_keywords in
          if Qlt_bool (9 # 10) keyword_overlap then false
          else true.

End Delta.

(* ------------------------------------------------------------------ *)
(** ** Views of the loader's state used to state its properties *)
(* ------------------------------------------------------------------ *)

Module View.
Import Loader.

(** What [_all_blocks] returns from a state: the cache when it is set,
    otherwise the blocks of the loaded packages in the dict's order. *)
Definition state_blocks (st : loader) : list block :=
  if _blocks_cache st is Some bs then bs else flat_blocks (_packages st).

(** The state once [_all_blocks] has run. *)
Definition with_cache (st : loader) : loader :=
  mk_loader (validate_integrity st) (_manifest st) (_packages st) (Some (state_blocks st)).

(** The manifest the [manifest] property yields on this disk. *)
Definition current_manifest (d : disk) (st : loader) : option (list pkg_meta) :=
  if _manifest st is Some m then Some m else disk_manifest d.

(** The package one pass of the loop reads for a descriptor, or [None]
    when that step raises (file absent, hash mismatch while validating,
    or a file that does not parse). *)
Definition meta_loads (vi : bool) (d : disk) (meta : pkg_meta) : option package :=
  match Py.dict_get (disk_files d) (file meta) with
  | None => None
  | Some f =>
      if vi && negb (String.eqb (Sha256.hexdigest (file_bytes f)) (hash_integridade meta))
      then None
      else file_json f
  end.

(** The package cache after the loop inserted the packages of [metas]. *)
Definition pk_after (vi : bool) (d : disk) (metas : list pkg_meta)
    (pk : list (string * package)) : list (string * package) :=
  foldl (fun pk meta =>
           if meta_loads vi d meta is Some p then Py.dict_set pk (segmento meta) p else pk)
        pk metas.

(** The blocks of a descriptor's package as read from disk. *)
Definition meta_blocks (vi : bool) (d : disk) (meta : pkg_meta) : list block :=
  if meta_loads vi d meta is Some p then pkg_blocks p else [::].

Definition is_cache_write (e : write_ev) : bool :=
  if e is WBlocksCache _ then true else false.

Definition is_package_write (e : write_ev) : bool :=
  if e is WPackage _ _ then true else false.

(** Distinct segment names. *)
Fixpoint distinct_segments (metas : list pkg_meta) : bool :=
  match metas with
  | [::] => true
  | meta :: rest =>
      negb (has (fun m => String.eqb (segmento m) (segmento meta)) rest)
      && distinct_segments rest
  end.

(** Every way the public methods change a loader: the methods not listed
    only read the state, or change it through one of these (every query
    with a segment goes through [get_blocks_by_segment], every query
    without one through [_all_blocks], [list_segments] and
    [get_statistics] through the [manifest] property and [_all_blocks]). *)
Inductive op :=
| OpLoadAll
| OpLoadPackage (segment : string)
| OpReload
| OpQuery (segment : option string)
| OpManifest.

Definition run_op (o : op) : M unit :=
  match o with
  | OpLoadAll => bind load_all_packages (fun _ => ret tt)
  | OpLoadPackage s => bind (load_package s) (fun _ => ret tt)
  | OpReload => reload
  | OpQuery s => bind (query_source s) (fun _ => ret tt)
  | OpManifest => bind manifest (fun _ => ret tt)
  end.

(** The states a [KnowledgeLoader(validate_integrity=vi)] can be in, the
    files on disk changing arbitrarily between calls. *)
Inductive reachable (vi : bool) : loader -> Prop :=
| reach_init : reachable vi (init_loader vi)
| reach_step (o : op) (d : disk) (st st' : loader) (w : list write_ev) (r : outcome unit) :
    reachable vi st -> run_op o d st = (st', w, r) -> reachable vi st'.

(** Every cached segment is a segment of the cached manifest. *)
Definition manifest_covers (st : loader) : Prop :=
  forall s, isSome (Py.dict_get (_packages st) s) ->
  exists m, _manifest st = Some m /\ has (fun meta => String.eqb (segmento meta) s) m.

(** [block.get("vector_ready", False)] as a truth value. *)
Definition is_vector_ready (b : block) : bool := odflt false (vector_ready b).

(** [block.get("id") == i]. *)
Definition has_id (i : string) (b : block) : bool :=
  if block_id b is Some j then String.eqb j i else false.

(** Prefixes assignments to a method's log. *)
Definition prepend_log {A} (w : list write_ev) (res : loader * list write_ev * outcome A)
  : loader * list write_ev * outcome A :=
  match res with (st, w', r) => (st, cat w w', r) end.

(** The state with [_packages] replaced. *)
Definition put_packages (st : loader) (pk : list (string * package)) : loader :=
  mk_loader (validate_integrity st) (_manifest st) pk (_blocks_cache st).

(** The loop of [load_all_packages] in direct style: each descriptor either
    raises (the state stays as it is) or inserts its package. *)
Fixpoint loop_direct (d : disk) (metas : list pkg_meta) (st : loader)
  : loader * list write_ev * outcome unit :=
  match metas with
  | [::] => (st, [::], Ok tt)
  | meta :: rest =>
      match Py.dict_get (disk_files d) (file meta) with
      | None => (st, [::], Raise (KnowledgeLoaderError (PackageFileNotFound (file meta))))
      | Some f =>
          let actual := Sha256.hexdigest (file_bytes f) in
          if validate_integrity st && negb (String.eqb actual (hash_integridade meta)) then
            (st, [::], Raise (IntegrityError (segmento meta) (hash_integridade meta) actual))
          else
            match file_json f with
            | None => (st, [::], Raise (JSONDecodeError (file meta)))
            | Some p =>
                prepend_log [:: WPackage (segmento meta) p]
                  (loop_direct d rest
                     (put_packages st (Py.dict_set (_packages st) (segmento meta) p)))
            end
      end
  end.

End View.

(* ------------------------------------------------------------------ *)
(** ** The other query and utility methods of KnowledgeLoader *)
(* ------------------------------------------------------------------ *)

Module Queries.
Import Loader.

(** The outcome of [get_blocks_by_complexity]: it may also raise the
    built-in [ValueError], which is not one of the loader's exceptions. *)
Inductive outcome_v (A : Type) :=
| VOk (a : A)
| VRaise (e : py_exc)
| VValueError (complexity : string).
Arguments VOk {A} a.
Arguments VRaise {A} e.
Arguments VValueError {A} complexity.

(** [valid = {"basico", "intermediario", "avancado"}]. *)
Definition valid_complexities : list string := [:: "basico"; "intermediario"; "avancado"].

(** [b.get("nivel_complexidade") == complexity]. *)
Definition complexity_is (complexity : string) (b : block) : bool :=
  if nivel_complexidade b is Some c then String.eqb c complexity else false.

(** [get_blocks_by_complexity(complexity, segment)]. *)
Definition get_blocks_by_complexity (complexity : string) (segment : option string)
    (d : disk) (st : loader) : loader * list write_ev * outcome_v (list block) :=
  if negb (has (String.eqb complexity) valid_complexities) then
    (st, [::], VValueError complexity)
  else
    match bind (query_source segment)
               (fun source => ret (filter (complexity_is complexity) source)) d st with
    | (st', w, Ok r) => (st', w, VOk r)
    | (st', w, Raise e) => (st', w, VRaise e)
    end.

(** [b.get("regulatory_flag") is True]. *)
Definition is_regulatory (b : block) : bool :=
  if regulatory_flag b is Some true then true else false.

(** [get_regulatory_blocks(segment)]. *)
Definition get_regulatory_blocks (segment : option string) : M (list block) :=
  source <- query_source segment ;;
  ret (filter is_regulatory source).

(** [tag_lower in [t.lower() for t in b.get("tags", [])]]. *)
Definition has_tag (tag_lower : string) (b : block) : bool :=
  has (String.eqb tag_lower) (map Py.lower (odflt [::] (tags b))).

(** [get_blocks_by_tag(tag, segment)]. *)
Definition get_blocks_by_tag (tag : string) (segment : option string) : M (list block) :=
  source <- query_source segment ;;
  let tag_lower := Py.lower tag in
  ret (filter (has_tag tag_lower) source).

(** [b.get("persona_alvo", "").lower() == persona.lower()]. *)
Definition persona_is (persona : string) (b : block) : bool :=
  String.eqb (Py.lower (odflt "" (persona_alvo b))) (Py.lower persona).

(** [get_blocks_by_persona(persona, segment)]. *)
Definition get_blocks_by_persona (persona : string) (segment : option string) : M (list block) :=
  source <- query_source segment ;;
  ret (filter (persona_is persona) source).

(** The dict [get_statistics] returns. *)
Record statistics := mk_stats {
  loader_version : string;
  core_compatibility : string;
  total_segments_available : nat;
  segments_loaded : nat;
  total_blocks_loaded : nat;
  regulatory_blocks : nat;
  vector_ready_blocks : nat;
  segments : list string
}.

(** [get_statistics]: [_all_blocks] runs first (when a package is
    loaded), then the dict literal reads the [manifest] property; the
    counts use the truth value of [b.get(...)]. *)
Definition get_statistics : M statistics :=
  pk <- gets _packages ;;
  loaded_blocks <- (if pk is [::] then ret [::] else _all_blocks) ;;
  m <- manifest ;;
  pk' <- gets _packages ;;
  ret (mk_stats "2.1.0" "v2.0.0" (size m) (size pk') (size loaded_blocks)
                (count (fun b => odflt false (regulatory_flag b)) loaded_blocks)
                (count (fun b => odflt false (vector_ready b)) loaded_blocks)
                (map fst pk')).

End Queries.

(* ------------------------------------------------------------------ *)
(** ** The module-level convenience functions *)
(* ------------------------------------------------------------------ *)

(** The module global [_default_loader] is [option loader]; the loader
    object it holds is shared by every call, so a method's updates (also
    those made before it raises) stay in the global. *)
Module Convenience.
Import Loader.

(** [_get_loader()]: on first use, [KnowledgeLoader(auto_load=True)]
    (a validating loader whose constructor runs [load_all_packages]); the
    global is assigned only when the constructor returns. *)
Definition _get_loader (d : disk) (g : option loader)
  : option loader * list write_ev * outcome loader :=
  match g with
  | Some st => (g, [::], Ok st)
  | None =>
      match load_all_packages d (init_loader true) with
      | (st, w, Ok _) => (Some st, w, Ok st)
      | (_, w, Raise e) => (None, w, Raise e)
      end
  end.

(** [_get_loader().method(...)]. *)
Definition module_call {A} (m : M A) (d : disk) (g : option loader)
  : option loader * list write_ev * outcome A :=
  match _get_loader d g with
  | (g1, w1, Raise e) => (g1, w1, Raise e)
  | (_, w1, Ok st) => match m d st with (st', w2, r) => (Some st', cat w1 w2, r) end
  end.

(** The module-level [load_all_packages()]. *)
Definition load_all_packages_fn : disk -> option loader ->
    option loader * list write_ev * outcome (list (string * package)) :=
  module_call load_all_packages.

(** The module-level [get_blocks_by_segment(segment)]. *)
Definition get_blocks_by_segment_fn (segment : string) :=
  module_call (get_blocks_by_segment segment).

(** The module-level [get_regulatory_blocks(segment)]. *)
Definition get_regulatory_blocks_fn (segment : option string) :=
  module_call (Queries.get_regulatory_blocks segment).

(** The module-level [prepare_for_vectorization(segment)]. *)
Definition prepare_for_vectorization_fn (segment : option string) :=
  module_call (prepare_for_vectorization segment).

End Convenience.

(* ------------------------------------------------------------------ *)
(** ** The other methods of DeltaDetector *)
(* ------------------------------------------------------------------ *)

Module DeltaMore.
Import Delta.

(** The dict [compare_with_block] returns for a known block. *)
Record comparison := mk_comparison {
  cmp_block_id : string;
  cmp_similarity : Q;
  cmp_is_duplicate : bool;
  cmp_segment : string;
  cmp_title : string;
  cmp_existing_length : nat;
  cmp_new_length : nat;
  cmp_length_diff : Z
}.

(** [{"error": ...}] for an unknown id, or the comparison. *)
Inductive compare_result :=
| BlockNotFound (block_id : string)
| Compared (c : comparison).

(** [compare_with_block(new_content, block_id)]. *)
Definition compare_with_block (det : detector) (new_content block_id : string) : compare_result :=
  match Py.dict_get (knowledge_index det) block_id with
  | None => BlockNotFound block_id
  | Some block =>
      let similarity := _calculate_similarity new_content (ie_content block) in
      Compared (mk_comparison block_id similarity
                  (Qlt_bool (similarity_threshold det) similarity)
                  (ie_segment block) (ie_title block)
                  (String.length (ie_content block)) (String.length new_content)
                  (Z.of_nat (String.length new_content) - Z.of_nat (String.length (ie_content block)))%Z)
  end.

(** An item of [similar_blocks]. *)
Record similar := mk_similar {
  sim_block_id : string;
  sim_similarity : Q;
  sim_segment : string;
  sim_title : string
}.

(** [similar_blocks.sort(key=lambda x: x["similarity"], reverse=True)]. *)
Definition similarity_desc : rel similar := desc_by sim_similarity.

(** [max(xs, default=d)]: the first of the largest items. *)
Definition py_max (xs : list Q) (default : Q) : Q :=
  match xs with
  | [::] => default
  | x :: xs' => foldl (fun m y => if Qlt_bool m y then y else m) x xs'
  end.

(** The dict [detect_delta_details] returns when the text is not empty. *)
Record delta_report := mk_report {
  has_changes : bool;
  content_hash : string;
  keywords : list string;
  keyword_count : nat;
  max_similarity : Q;
  similar_blocks : list similar;
  content_length : nat;
  report_segment : string
}.

(** [{"status": "empty", ...}] or [{"status": "analyzed", ...}]. *)
Inductive delta_details :=
| DeltaEmpty
| DeltaAnalyzed (r : delta_report).

(** The blocks of the index whose similarity with [text] exceeds 0.5, in
    the index's order (the loop of [detect_delta_details]). *)
Definition similar_entries (det : detector) (text : string) : list similar :=
  filter (fun x => Qlt_bool (1 # 2) (sim_similarity x))
         (map (fun kv => mk_similar kv.1 (_calculate_similarity text (ie_content kv.2))
                                    (ie_segment kv.2) (ie_title kv.2))
              (knowledge_index det)).

(** [detect_delta_details(new_content)]. *)
Definition detect_delta_details (det : detector) (nc : new_content) : delta_details :=
  let text := content_text nc in
  if String.eqb text "" then DeltaEmpty
  else
    let content_hash := _hash_text text in
    let new_keywords := _extract_keywords text 10 in
    let similar_blocks := sort similarity_desc (similar_entries det text) in
    DeltaAnalyzed
      (mk_report (has_significant_changes det nc) content_hash new_keywords (size new_keywords)
                 (py_max (map sim_similarity similar_blocks) 0%Q)
                 (take 5 similar_blocks) (String.length text)
                 (odflt "unknown" (Py.dict_get nc "segment"))).

(** The entry [_build_knowledge_index] makes of a block. *)
Definition entry_of (block : legacy_block) : index_entry :=
  let content := odflt "" (lb_content block) in
  mk_entry content (odflt "" (lb_title block)) (odflt "" (lb_segment block))
           (_hash_text content) (_extract_keywords content 10).

(** The entry of the last block, over the globbed files in order, whose
    id is [k] (a non-empty id). *)
Definition last_entry_with_id (files : list legacy_file) (k : string) : option index_entry :=
  foldl (fun o b => if String.eqb (odflt "" (lb_id b)) k && negb (String.eqb k "")
                    then Some (entry_of b) else o)
        None (flatten (map (fun f => odflt [::] f) files)).

End DeltaMore.

(* ------------------------------------------------------------------ *)
(** ** Further views of the loader's state *)
(* ------------------------------------------------------------------ *)

Module ExtraViews.
Import Loader View.

(** What [dict_get pk k] becomes after one descriptor's step of the loop
    of [load_all_packages]. *)
Definition get_step (vi : bool) (d : disk) (k : string) (o : option package) (meta : pkg_meta)
  : option package :=
  if meta_loads vi d meta is Some p then (if String.eqb k (segmento meta) then Some p else o) else o.

(** The outcome is not an [IntegrityError]. *)
Definition no_integrity_error {A} (r : outcome A) : Prop :=
  match r with
  | Raise (IntegrityError _ _ _) => False
  | _ => True
  end.

End ExtraViews.

(* ------------------------------------------------------------------ *)
(** ** Concrete inputs used by the examples, witnesses and counterexamples *)
(* ------------------------------------------------------------------ *)

Module Scenario.
Import Loader.

Definition blk (i text : string) (prio : Q) (vr : bool) : block :=
  mk_block (Some i) (Some text) None None None None (Some prio) None (Some vr)
           None None None None.

Definition bA1 : block := blk "a1" "Aliquota do IBS" (9 # 10) true.
Definition bA2 : block := blk "a2" "Regime tributario" (5 # 10) false.
Definition bB1 : block := blk "b1" "Aliquota da CBS" (9 # 10) true.

Definition pA : package := mk_package (Some [:: bA1; bA2]).
Definition pB : package := mk_package (Some [:: bB1]).

Definition bytesA : string := "{knowledge_blocks: A}".
Definition bytesB : string := "{knowledge_blocks: B}".

Definition metaA : pkg_meta := mk_meta "A" "a.json" (Sha256.hexdigest bytesA).
Definition metaB : pkg_meta := mk_meta "B" "b.json" (Sha256.hexdigest bytesB).

(** Two segments, both files present and matching the manifest. *)
Definition disk1 : disk :=
  mk_disk (Some [:: metaA; metaB])
          [:: ("a.json", mk_file bytesA (Some pA)); ("b.json", mk_file bytesB (Some pB))].

(** [a.json] rewritten: its hash no longer matches the manifest. *)
Definition file_a_tampered : disk_file :=
  mk_file "{knowledge_blocks: A, edited}" (Some pA).

(** [disk1] after [a.json] was rewritten. *)
Definition disk_tampered : disk :=
  mk_disk (Some [:: metaA; metaB])
          [:: ("a.json", file_a_tampered); ("b.json", mk_file bytesB (Some pB))].

(** [a.json] is tampered with and [b.json] is missing. *)
Definition disk_tampered_missing : disk :=
  mk_disk (Some [:: metaA; metaB]) [:: ("a.json", file_a_tampered)].

(** Only [a.json] is present. *)
Definition disk_missing_b : disk :=
  mk_disk (Some [:: metaA; metaB]) [:: ("a.json", mk_file bytesA (Some pA))].

(** Runs a method and keeps its final state. *)
Definition after {A} (m : M A) (d : disk) (st : loader) : loader :=
  match m d st with (st', _, _) => st' end.

Definition outcome_of {A} (m : M A) (d : disk) (st : loader) : outcome A :=
  match m d st with (_, _, r) => r end.

Definition log_of {A} (m : M A) (d : disk) (st : loader) : list write_ev :=
  match m d st with (_, w, _) => w end.

(** A fresh validating loader after [load_all_packages] on [disk1]. *)
Definition st_loaded : loader := after load_all_packages disk1 (init_loader true).

(** A fresh validating loader after [load_package("B")] on [disk1]. *)
Definition st_b_first : loader := after (load_package "B") disk1 (init_loader true).

(** Two vector-ready blocks of two segments that share the id "dup". *)
Definition bDup1 : block := blk "dup" "Texto um" (1 # 2) true.
Definition bDup2 : block := blk "dup" "Texto dois" (1 # 2) true.
Definition st_dup : loader :=
  mk_loader false (Some [::])
            [:: ("A", mk_package (Some [:: bDup1])); ("B", mk_package (Some [:: bDup2]))]
            None.

(** A globbed file with one block that has an id and no content. *)
Definition files_blank : list Delta.legacy_file :=
  [:: Some [:: Delta.mk_legacy (Some "x") None None None]].

(** New content made of one space. *)
Definition nc_blank : Delta.new_content := [:: ("content", " ")].

(** A globbed file with one block, and new content unlike it. *)
Definition files_one : list Delta.legacy_file :=
  [:: Some [:: Delta.mk_legacy (Some "x") (Some "Aliquota do IBS") None None]].

Definition nc_new : Delta.new_content := [:: ("content", "Regime novo")].

End Scenario.

(* ================================================================== *)
(** * Proofs *)
(* ================================================================== *)

(** ** The executable library models on known values (CPython's results) *)

Module LibraryChecks.

Example sha256_abc :
  Sha256.hexdigest "abc"
  = "ba7816bf8f01cfea414140de5dae2223b00361a396177a9cb410ff61f20015ad".
Proof. vm_compute. reflexivity. Qed.

Example sha256_empty :
  Sha256.hexdigest ""
  = "e3b0c44298fc1c149afbf4c8996fb92427ae41e4649b934ca495991b7852b855".
Proof. vm_compute. reflexivity. Qed.

Example py_strip_ex : Py.strip "  Hello world  " = "Hello world".
Proof. reflexivity. Qed.

Example py_count_ex : Py.count "aaaa" "aa" = 2%N.
Proof. reflexivity. Qed.

Example ratio_abcd_bcde : Qeq_bool (Difflib.ratio "abcd" "bcde") (3 # 4) = true.
Proof. vm_compute. reflexivity. Qed.

Example ratio_qabxcd : Qeq_bool (Difflib.ratio "qabxcd" "abycdf") (2 # 3) = true.
Proof. vm_compute. reflexivity. Qed.

Example py_split_ex : Py.split " a  bc	d " = [:: "a"; "bc"; "d"].
Proof. reflexivity. Qed.

Example py_contains_ex : Py.contains "lo w" "hello world" = true.
Proof. reflexivity. Qed.

Example ratio_same : Qeq_bool (Difflib.ratio "hello" "hello") 1 = true.
Proof. vm_compute. reflexivity. Qed.

End LibraryChecks.

(** ** Stable descending sort by a rational key, and Python's [xs[:n]] *)

Section KeyedSort.
Variable T : Type.
Variable key : T -> Q.
Local Abbreviation desc_by := (desc_by key).
Local Abbreviation key_is := (key_is key).

Lemma desc_by_total : total desc_by.
Proof.
  move=> a b; rewrite /desc_by.
  case: (Qlt_le_dec (key a) (key b)) => [/Qlt_le_weak H|H].
  - by rewrite (proj2 (Qle_bool_iff _ _) H) orbT.
  - by rewrite (proj2 (Qle_bool_iff _ _) H).
Qed.

Lemma desc_by_trans : transitive desc_by.
Proof.
  move=> b a c; rewrite /desc_by => /Qle_bool_iff H1 /Qle_bool_iff H2.
  apply/Qle_bool_iff; exact: Qle_trans H2 H1.
Qed.

Lemma sorted_same_key q s : all (key_is q) s -> sorted desc_by s.
Proof.
  elim: s => [|x s IH] //= /andP [Hx Hs].
  move: (IH Hs); case: s Hs {IH} => [|y s] //= /andP [Hy _] ->.
  rewrite andbT /desc_by; apply/Qle_bool_iff.
  move: Hx Hy => /Qeq_bool_iff Hx /Qeq_bool_iff Hy.
  rewrite Hx Hy; exact: Qle_refl.
Qed.

(** Stability: among the items of one key, [sort] keeps the input order. *)
Lemma sort_desc_stable q s :
  filter (key_is q) (sort desc_by s) = filter (key_is q) s.
Proof.
  rewrite (filter_sort desc_by_total desc_by_trans).
  apply: sorted_sort; first exact: desc_by_trans.
  apply: (@sorted_same_key q); exact: filter_all.
Qed.

Lemma filter_take_prefix (p : pred T) k s :
  exists m, filter p (take k s) = take m (filter p s).
Proof.
  exists (size (filter p (take k s))).
  by rewrite -{3}(cat_take_drop k s) filter_cat take_size_cat.
Qed.

Lemma slice_to_take (s : list T) n : exists k, Py.slice_to s n = take k s.
Proof. rewrite /Py.slice_to; case: (0 <=? n)%Z; eexists; reflexivity. Qed.

Lemma size_slice_to (s : list T) n :
  size (Py.slice_to s n) =
  if (0 <=? n)%Z then minn (Z.to_nat n) (size s) else size s - Z.to_nat (- n).
Proof.
  rewrite /Py.slice_to; case: (0 <=? n)%Z; rewrite size_take_min //.
  by apply/minn_idPl; rewrite leq_subr.
Qed.

End KeyedSort.

(** ** Running the loader's methods *)

Module LoaderRun.
Import Loader View.

Lemma all_blocks_run d st :
  exists w, _all_blocks d st = (with_cache st, w, Ok (state_blocks st)).
Proof.
  case: st => vi m pk [bs|]; rewrite /_all_blocks /bind /gets /=.
  - by exists [::].
  - by eexists.
Qed.

Lemma state_blocks_with_cache st : state_blocks (with_cache st) = state_blocks st.
Proof. by []. Qed.

Lemma with_cache_idem st : with_cache (with_cache st) = with_cache st.
Proof. by []. Qed.

Lemma top_run n d st :
  exists w, get_top_blocks_by_priority n None d st
            = (with_cache st, w, Ok (Py.slice_to (sort priority_desc (state_blocks st)) n)).
Proof.
  have [w Hrun] := all_blocks_run d st.
  rewrite /get_top_blocks_by_priority /query_source /bind Hrun /ret /=.
  by exists (cat w [::]).
Qed.

End LoaderRun.

(** ** get_top_blocks_by_priority *)

Module TopByPriority.
Import Loader View LoaderRun Scenario.

(** C5 (as amended).  [get_top_blocks_by_priority(n)] returns, from the
    loaded blocks [src] (what [_all_blocks] returns), a list of length
    [min(n, len(src))] when [n >= 0] (and [max(0, len(src) + n)] when
    [n < 0], by Python slicing), non-increasing in [embedding_priority]
    (absent: 0), where blocks of equal priority keep their order in [src];
    a second call on the resulting state returns the same list and leaves
    the state as it is. *)
Theorem get_top_blocks_by_priority_spec (n : Z) (d : disk) (st : loader) :
  let src := state_blocks st in
  let '(st1, _, r1) := get_top_blocks_by_priority n None d st in
  let '(st2, _, r2) := get_top_blocks_by_priority n None d st1 in
  exists top,
    r1 = Ok top /\
    size top = (if (0 <=? n)%Z then minn (Z.to_nat n) (size src)
                else size src - Z.to_nat (- n)) /\
    sorted priority_desc top /\
    (forall q, exists m,
        filter (key_is priority q) top = take m (filter (key_is priority q) src)) /\
    r2 = r1 /\ st2 = st1.
Proof.
  have [w1 ->] := top_run n d st.
  have [w2 ->] := top_run n d (with_cache st).
  rewrite state_blocks_with_cache with_cache_idem.
  set src := state_blocks st.
  exists (Py.slice_to (sort priority_desc src) n); split; first by [].
  split; first by rewrite size_slice_to size_sort.
  have [k Hk] := slice_to_take (sort priority_desc src) n.
  split; first by rewrite Hk; apply: take_sorted; apply: sort_sorted; exact: desc_by_total.
  split; last by [].
  move=> q; rewrite Hk.
  have [m Hm] := filter_take_prefix (key_is priority q) k (sort priority_desc src).
  by exists m; rewrite Hm sort_desc_stable.
Qed.

(** C5: with [n = -1] and three loaded blocks, two blocks come back,
    while [min(n, total)] is [-1]. *)
Lemma top_by_priority_negative_n :
  outcome_of (get_top_blocks_by_priority (-1) None) disk1 st_loaded = Ok [:: bA1; bB1]
  /\ size (state_blocks st_loaded) = 3
  /\ Z.of_nat 2 <> Z.min (-1) (Z.of_nat 3).
Proof. vm_compute. split; [reflexivity | split; [reflexivity | discriminate]]. Qed.

End TopByPriority.

(** ** search_blocks *)

Module Search.
Import Loader View LoaderRun Scenario.

Lemma Qlt_bool_0_compat x y : Qeq_bool x y -> Qlt_bool 0 x = Qlt_bool 0 y.
Proof.
  move=> /Qeq_bool_iff H; rewrite /Qlt_bool; congr negb.
  apply/idP/idP => /Qle_bool_iff H'; apply/Qle_bool_iff.
  - by setoid_rewrite <- H.
  - by setoid_rewrite H.
Qed.

(** Keeping the positive-scored items of the items of one key gives a
    prefix of the items of that key: all of them, or none. *)
Lemma filter_key_positive (T : Type) (key : T -> Q) q (s : list T) :
  exists m, filter (key_is key q) (filter (fun x => Qlt_bool 0 (key x)) s)
            = take m (filter (key_is key q) s).
Proof.
  rewrite -filter_predI.
  case Hq: (Qlt_bool 0 q).
  - exists (size (filter (key_is key q) s)); rewrite take_size.
    apply: eq_filter => x /=; rewrite /key_is.
    case Hx: (Qeq_bool (key x) q) => //=.
    by rewrite (Qlt_bool_0_compat Hx) Hq.
  - exists 0; rewrite take0.
    rewrite -(filter_pred0 s); apply: eq_filter => x /=; rewrite /key_is.
    case Hx: (Qeq_bool (key x) q) => //=.
    by rewrite (Qlt_bool_0_compat Hx) Hq.
Qed.

Lemma slice_to_map (A B : Type) (f : A -> B) (s : list A) n :
  Py.slice_to (map f s) n = map f (Py.slice_to s n).
Proof. by rewrite /Py.slice_to size_map; case: (0 <=? n)%Z; rewrite map_take. Qed.

Lemma search_run query k d st :
  exists w, search_blocks query None k d st
            = (with_cache st, w,
               Ok (Py.slice_to (sort (desc_by (block_score query))
                                     (filter (fun b => Qlt_bool 0 (block_score query b))
                                             (state_blocks st))) k)).
Proof.
  have [w Hrun] := all_blocks_run d st.
  rewrite /search_blocks /query_source /bind Hrun /ret /=.
  exists (cat w [::]); do 3 f_equal.
  rewrite filter_map sort_map slice_to_map -map_comp.
  by rewrite (@eq_map _ _ _ id) // map_id.
Qed.

(** C4.  For [k >= 0], [search_blocks(query, top_k=k)] returns at most [k]
    blocks, each with a positive score, in non-increasing score order, and
    the blocks of any one score come in their order in the loaded blocks. *)
Theorem search_blocks_spec (query : string) (k : Z) (d : disk) (st : loader) :
  (0 <= k)%Z ->
  let score := block_score query in
  let src := state_blocks st in
  exists w res,
    search_blocks query None k d st = (with_cache st, w, Ok res) /\
    size res <= Z.to_nat k /\
    all (fun b => Qlt_bool 0 (score b)) res /\
    sorted (desc_by score) res /\
    (forall q, exists m, filter (key_is score q) res = take m (filter (key_is score q) src)).
Proof.
  move=> Hk score src.
  have [w Hrun] := search_run query k d st.
  set ranked := sort _ _ in Hrun.
  exists w, (Py.slice_to ranked k); split; first exact: Hrun.
  have Hsl : Py.slice_to ranked k = take (Z.to_nat k) ranked.
    by rewrite /Py.slice_to; move/Z.leb_le: Hk => ->.
  rewrite Hsl; split; first by rewrite size_take_min geq_minl.
  split.
    have := filter_all (fun b => Qlt_bool 0 (block_score query b)) src.
    rewrite -(all_sort _ (desc_by (block_score query))) -/ranked.
    by rewrite -{1}(cat_take_drop (Z.to_nat k) ranked) all_cat => /andP [].
  split.
    apply: take_sorted; apply: sort_sorted; exact: desc_by_total.
  move=> q.
  have [m1 H1] := filter_take_prefix (key_is score q) (Z.to_nat k) ranked.
  have [m2 H2] := filter_key_positive score q src.
  exists (minn m1 m2).
  by rewrite H1 /ranked sort_desc_stable H2 take_min.
Qed.

Lemma search_blocks_spec_witness :
  (0 <= 1)%Z /\
  let score := block_score "aliquota" in
  let src := state_blocks st_loaded in
  exists w res,
    search_blocks "aliquota" None 1 disk1 st_loaded = (with_cache st_loaded, w, Ok res) /\
    size res <= Z.to_nat 1 /\
    all (fun b => Qlt_bool 0 (score b)) res /\
    sorted (desc_by score) res /\
    (forall q, exists m, filter (key_is score q) res = take m (filter (key_is score q) src)).
Proof.
  split; first exact: Z.le_0_1.
  exact (@search_blocks_spec "aliquota" 1 disk1 st_loaded Z.le_0_1).
Defined.

End Search.

(** ** Python dicts as association lists *)

Module DictFacts.

Lemma dict_get_set {V} (dt : list (string * V)) k v s :
  Py.dict_get (Py.dict_set dt k v) s =
  if String.eqb s k then Some v else Py.dict_get dt s.
Proof.
  elim: dt => [|[k' v'] dt IH] //=.
  case Hk: (String.eqb k k') => /=.
  - by move/String.eqb_eq: Hk => ->; case: (String.eqb s k').
  - rewrite IH; case Hs: (String.eqb s k') => //.
    move/String.eqb_eq: Hs => ->.
    by rewrite String.eqb_sym Hk.
Qed.

Lemma dict_set_fresh {V} (dt : list (string * V)) k v :
  Py.dict_get dt k = None -> Py.dict_set dt k v = cat dt [:: (k, v)].
Proof.
  elim: dt => [|[k' v'] dt IH] //=.
  by case: (String.eqb k k') => // /IH ->.
Qed.

Lemma dict_values_set {V} (dt : list (string * V)) k v e :
  List.In e (Py.dict_values (Py.dict_set dt k v)) ->
  e = v \/ List.In e (Py.dict_values dt).
Proof.
  elim: dt => [|[k' v'] dt IH] /=; first by case=> [->|[]]; left.
  case: (String.eqb k k') => /=.
  - by case=> [->|H]; [left | right; right].
  - by case=> [->|/IH [H|H]]; [right; left | left | right; right].
Qed.

End DictFacts.

(** ** The loop of load_all_packages *)

Module LoadAll.
Import Loader View Scenario.

Lemma bind_run {A B} (m : M A) (k : A -> M B) d st :
  bind m k d st =
  match m d st with
  | (st1, w1, Ok a) => match k a d st1 with (st2, w2, r) => (st2, cat w1 w2, r) end
  | (st1, w1, Raise e) => (st1, w1, Raise e)
  end.
Proof. by []. Qed.

Lemma open_file_run p d st :
  open_file p d st =
  (st, [::], match Py.dict_get (disk_files d) p with
             | Some f => Ok f
             | None => Raise (FileNotFoundError p)
             end).
Proof. by rewrite /open_file bind_run /=; case: (Py.dict_get _ _). Qed.

Lemma json_load_run p d st :
  json_load p d st =
  (st, [::], match Py.dict_get (disk_files d) p with
             | Some f => if file_json f is Some pk then Ok pk else Raise (JSONDecodeError p)
             | None => Raise (FileNotFoundError p)
             end).
Proof.
  rewrite /json_load bind_run open_file_run.
  by case: (Py.dict_get _ _) => [f|] //=; case: (file_json f).
Qed.

Lemma validate_hash_run p h seg d st :
  _validate_hash p h seg d st =
  (st, [::], match Py.dict_get (disk_files d) p with
             | Some f =>
                 let actual := Sha256.hexdigest (file_bytes f) in
                 if String.eqb actual h then Ok tt else Raise (IntegrityError seg h actual)
             | None => Raise (FileNotFoundError p)
             end).
Proof.
  rewrite /_validate_hash bind_run open_file_run.
  by case: (Py.dict_get _ _) => [f|] //=; case: (String.eqb _ _).
Qed.

Lemma load_all_loop_direct d metas st :
  load_all_loop metas d st = loop_direct d metas st.
Proof.
  elim: metas st => [|meta rest IH] st //=.
  rewrite bind_run /path_exists bind_run /=.
  case E: (Py.dict_get (disk_files d) (file meta)) => [f|] //=.
  rewrite bind_run /= bind_run.
  have Hk : forall st1,
      (package <- json_load (file meta) ;;
       set_package (segmento meta) package ;; load_all_loop rest) d st1 =
      match file_json f with
      | Some p => prepend_log [:: WPackage (segmento meta) p]
                    (loop_direct d rest
                       (put_packages st1 (Py.dict_set (_packages st1) (segmento meta) p)))
      | None => (st1, [::], Raise (JSONDecodeError (file meta)))
      end.
    move=> st1; rewrite bind_run json_load_run E /=.
    case: (file_json f) => [p|] //=.
    rewrite bind_run /set_package /= IH /prepend_log /put_packages /=.
    by case: (loop_direct _ _ _) => [[? ?] ?].
  case: (validate_integrity st) => /=.
    rewrite validate_hash_run E /=.
    case: (String.eqb _ _) => //=.
    rewrite Hk; case: (file_json f) => [p|] //=.
    by rewrite /prepend_log; case: (loop_direct _ _ _) => [[? ?] ?].
  rewrite /ret /= Hk; case: (file_json f) => [p|] //=.
  by rewrite /prepend_log; case: (loop_direct _ _ _) => [[? ?] ?].
Qed.

Lemma manifest_run d st :
  manifest d st =
  match _manifest st with
  | Some m => (st, [::], Ok m)
  | None =>
      match disk_manifest d with
      | Some m =>
          (mk_loader (validate_integrity st) (Some m) (_packages st) (_blocks_cache st),
           [:: WManifest m], Ok m)
      | None => (st, [::], Raise (KnowledgeLoaderError ManifestNotFound))
      end
  end.
Proof.
  case: st => vi [m|] pk c; rewrite /manifest bind_run //=.
  rewrite bind_run /_load_manifest bind_run /=.
  by case: (disk_manifest d) => [m|] //=.
Qed.

Lemma load_all_run d st :
  load_all_packages d st =
  match current_manifest d st with
  | None =>
      (mk_loader (validate_integrity st) (_manifest st) (_packages st) None,
       [:: WBlocksCache None], Raise (KnowledgeLoaderError ManifestNotFound))
  | Some m =>
      let wm := if _manifest st is Some _ then [::] else [:: WManifest m] in
      match loop_direct d m (mk_loader (validate_integrity st) (Some m) (_packages st) None) with
      | (st', w, Ok _) => (st', WBlocksCache None :: cat wm w, Ok (_packages st'))
      | (st', w, Raise e) => (st', WBlocksCache None :: cat wm w, Raise e)
      end
  end.
Proof.
  rewrite /load_all_packages bind_run /= bind_run manifest_run /current_manifest.
  case: st => vi [m|] pk c /=.
  - rewrite bind_run load_all_loop_direct.
    by case: (loop_direct _ _ _) => [[st' w] [[]|e]] /=; rewrite ?cats0.
  - case: (disk_manifest d) => [m|] //=.
    rewrite bind_run load_all_loop_direct.
    by case: (loop_direct _ _ _) => [[st' w] [[]|e]] /=; rewrite ?cats0.
Qed.

Lemma loop_direct_frame d metas st :
  let '(st', w, _) := loop_direct d metas st in
  validate_integrity st' = validate_integrity st /\ _manifest st' = _manifest st /\
  _blocks_cache st' = _blocks_cache st /\ ~~ has is_cache_write w.
Proof.
  elim: metas st => [|meta rest IH] st //=.
  case: (Py.dict_get _ _) => [f|] //=.
  case: (_ && _) => //=.
  case: (file_json f) => [p|] //=.
  move: (IH (put_packages st (Py.dict_set (_packages st) (segmento meta) p))).
  rewrite /prepend_log; case: (loop_direct _ _ _) => [[st' w] r] /=.
  by case=> -> [-> [-> ->]].
Qed.

Lemma prepend_log_cat {A} w1 w2 (x : loader * list write_ev * outcome A) :
  prepend_log w1 (prepend_log w2 x) = prepend_log (cat w1 w2) x.
Proof. by case: x => [[st w] r]; rewrite /prepend_log catA. Qed.

Lemma loop_direct_cat d pre rest st :
  all (fun m => isSome (meta_loads (validate_integrity st) d m)) pre ->
  exists w, loop_direct d (cat pre rest) st =
    prepend_log w (loop_direct d rest
                     (put_packages st (pk_after (validate_integrity st) d pre (_packages st)))).
Proof.
  elim: pre st => [|meta pre IH] st /=.
    move=> _; exists [::]; case: st => vi m pk c /=.
    by case: (loop_direct _ _ _) => [[? ?] ?].
  rewrite {1}/meta_loads => /andP [Hm Hpre].
  case E: (Py.dict_get (disk_files d) (file meta)) Hm => [f|] //=.
  case Hh: (_ && _) => //=; case Hj: (file_json f) => [p|] //= _.
  have [w Hw] := IH (put_packages st (Py.dict_set (_packages st) (segmento meta) p)) Hpre.
  exists (WPackage (segmento meta) p :: w).
  rewrite Hw prepend_log_cat /pk_after /= /meta_loads E Hh Hj.
  by case: st {Hw Hh Hpre} => vi m pk c.
Qed.

Lemma pk_after_get_other vi d metas pk s :
  ~~ has (fun m => String.eqb (segmento m) s) metas ->
  Py.dict_get (pk_after vi d metas pk) s = Py.dict_get pk s.
Proof.
  elim: metas pk => [|meta rest IH] pk //= /norP [Hs Hrest].
  rewrite -/(pk_after vi d rest _) IH //.
  case: (meta_loads vi d meta) => [p|] //.
  by rewrite DictFacts.dict_get_set String.eqb_sym (negbTE Hs).
Qed.

Lemma pk_after_keeps vi d metas pk s :
  isSome (Py.dict_get pk s) -> isSome (Py.dict_get (pk_after vi d metas pk) s).
Proof.
  elim: metas pk => [|meta rest IH] pk //= H.
  rewrite -/(pk_after vi d rest _); apply: IH.
  case: (meta_loads vi d meta) => [p|] //.
  by rewrite DictFacts.dict_get_set; case: (String.eqb _ _).
Qed.

Lemma pk_after_present vi d metas pk :
  all (fun m => isSome (meta_loads vi d m)) metas ->
  all (fun m => isSome (Py.dict_get (pk_after vi d metas pk) (segmento m))) metas.
Proof.
  elim: metas pk => [|meta rest IH] pk //= /andP [Hm Hrest].
  rewrite -/(pk_after vi d rest _) IH // andbT.
  apply: pk_after_keeps; case: (meta_loads vi d meta) Hm => [p|] // _.
  by rewrite DictFacts.dict_get_set String.eqb_refl.
Qed.

Lemma pk_after_fresh vi d metas pk :
  distinct_segments metas ->
  all (fun m => ~~ isSome (Py.dict_get pk (segmento m))) metas ->
  flat_blocks (pk_after vi d metas pk) =
  cat (flat_blocks pk) (flatten (map (meta_blocks vi d) metas)).
Proof.
  elim: metas pk => [|meta rest IH] pk /=; first by rewrite cats0.
  move=> /andP [Hd Hdist] /andP [Hfresh Hall].
  rewrite -/(pk_after vi d rest _).
  case E: (meta_loads vi d meta) => [p|] /=.
  - have -> : meta_blocks vi d meta = pkg_blocks p by rewrite /meta_blocks E.
    rewrite IH //.
    + rewrite -all_predC in Hd.
      have := all_predI (fun m => ~~ isSome (Py.dict_get pk (segmento m)))
                        (predC (fun m => String.eqb (segmento m) (segmento meta))) rest.
      rewrite Hall Hd /= => H; apply: sub_all H => m /= /andP [Hm Hne].
      by rewrite DictFacts.dict_get_set (negbTE Hne).
    + rewrite DictFacts.dict_set_fresh; first by move: Hfresh; case: (Py.dict_get pk (segmento meta)) => //=.
      by rewrite /flat_blocks map_cat flatten_cat /= cats0 catA.
  - have -> : meta_blocks vi d meta = [::] by rewrite /meta_blocks E.
    by rewrite IH.
Qed.

Lemma loop_direct_keys d metas st :
  let '(st', _, _) := loop_direct d metas st in
  forall s, isSome (Py.dict_get (_packages st') s) ->
  isSome (Py.dict_get (_packages st) s) || has (fun m => String.eqb (segmento m) s) metas.
Proof.
  elim: metas st => [|meta rest IH] st /=; first by move=> s ->.
  case: (Py.dict_get _ _) => [f|]; last by move=> s ->.
  case: (_ && _); first by move=> s ->.
  case: (file_json f) => [p|]; last by move=> s ->.
  move: (IH (put_packages st (Py.dict_set (_packages st) (segmento meta) p))).
  rewrite /prepend_log; case: (loop_direct _ _ _) => [[st' w] r] /= H s /H.
  rewrite DictFacts.dict_get_set String.eqb_sym.
  by case: (String.eqb _ _); rewrite /= ?orbT.
Qed.

(** C1 (as amended).  With [validate_integrity] on, when the manifest is
    [pre ++ meta :: post], every descriptor of [pre] loads and [meta]'s file
    is present with a SHA256 that differs from the manifest's,
    [load_all_packages] raises [IntegrityError] for [meta]; the package
    cache is the old one with the packages of [pre] inserted, so this pass
    does not insert [meta]'s package, and a package cached for [meta]'s
    segment before the call (when [pre] does not reload that segment) is
    still cached after it. *)
Theorem load_all_packages_integrity_error d st pre meta post f :
  validate_integrity st = true ->
  current_manifest d st = Some (cat pre (meta :: post)) ->
  all (fun m => isSome (meta_loads true d m)) pre ->
  Py.dict_get (disk_files d) (file meta) = Some f ->
  String.eqb (Sha256.hexdigest (file_bytes f)) (hash_integridade meta) = false ->
  let '(st', _, r) := load_all_packages d st in
  r = Raise (IntegrityError (segmento meta) (hash_integridade meta)
                            (Sha256.hexdigest (file_bytes f))) /\
  _packages st' = pk_after true d pre (_packages st) /\
  (~~ has (fun m => String.eqb (segmento m) (segmento meta)) pre ->
   Py.dict_get (_packages st') (segmento meta) = Py.dict_get (_packages st) (segmento meta)).
Proof.
  move=> Hvi Hm Hpre Hf Hh.
  rewrite load_all_run Hm Hvi /=.
  have [w ->] := @loop_direct_cat d pre (meta :: post)
                   (mk_loader true (Some (cat pre (meta :: post))) (_packages st) None) Hpre.
  rewrite /= Hf Hh /prepend_log /=.
  split; first by [].
  split; first by [].
  exact: pk_after_get_other.
Qed.

(** C2 (as amended).  When every descriptor of the manifest loads,
    [load_all_packages] returns the package cache, which is the old cache
    with the packages inserted in manifest order (a segment cached before
    keeps its place in the dict), and [_all_blocks] then returns the
    concatenation of the cached packages' blocks in the dict's order.
    This is the concatenation in manifest order when the cache was empty
    before the call and the manifest's segments are distinct. *)
Theorem load_all_packages_blocks d st m :
  current_manifest d st = Some m ->
  all (fun meta => isSome (meta_loads (validate_integrity st) d meta)) m ->
  let '(st', _, r) := load_all_packages d st in
  r = Ok (_packages st') /\
  _packages st' = pk_after (validate_integrity st) d m (_packages st) /\
  (exists w, _all_blocks d st' = (with_cache st', w, Ok (flat_blocks (_packages st')))) /\
  (_packages st = [::] -> distinct_segments m ->
   flat_blocks (_packages st') = flatten (map (meta_blocks (validate_integrity st) d) m)).
Proof.
  move=> Hm Hall.
  rewrite load_all_run Hm /=.
  have [w Hw] := @loop_direct_cat d m [::]
                   (mk_loader (validate_integrity st) (Some m) (_packages st) None) Hall.
  rewrite cats0 in Hw; rewrite Hw /prepend_log /=.
  split; first by [].
  split; first by [].
  split.
    have [w' Hw'] := LoaderRun.all_blocks_run d
      (mk_loader (validate_integrity st) (Some m)
                 (pk_after (validate_integrity st) d m (_packages st)) None).
    by exists w'.
  move=> Hpk Hd; rewrite Hpk pk_after_fresh //.
  exact: all_predT.
Qed.

(** C6 (as amended).  When the manifest is [pre ++ meta :: post], every
    descriptor of [pre] loads and [meta]'s file is absent,
    [load_all_packages] raises [KnowledgeLoaderError] (package file not
    found, with [meta]'s path), and the package cache keeps every package
    the pass inserted before: each segment of [pre] is cached. *)
Theorem load_all_packages_missing_file d st pre meta post :
  current_manifest d st = Some (cat pre (meta :: post)) ->
  all (fun m => isSome (meta_loads (validate_integrity st) d m)) pre ->
  Py.dict_get (disk_files d) (file meta) = None ->
  let '(st', _, r) := load_all_packages d st in
  r = Raise (KnowledgeLoaderError (PackageFileNotFound (file meta))) /\
  _packages st' = pk_after (validate_integrity st) d pre (_packages st) /\
  all (fun m => isSome (Py.dict_get (_packages st') (segmento m))) pre.
Proof.
  move=> Hm Hpre Hf.
  rewrite load_all_run Hm /=.
  have [w ->] := @loop_direct_cat d pre (meta :: post)
                   (mk_loader (validate_integrity st) (Some (cat pre (meta :: post)))
                              (_packages st) None) Hpre.
  rewrite /= Hf /prepend_log /=.
  split; first by [].
  split; first by [].
  exact: pk_after_present.
Qed.

(** C8 (as amended).  Every call of [load_all_packages] assigns the flat
    block cache exactly once, and that assignment (to [None]) is its first
    assignment, made before the manifest is read and before any package is
    inserted; the cache is [None] after the call, also when it raises. *)
Theorem load_all_packages_invalidates_first d st :
  let '(st', w, _) := load_all_packages d st in
  exists w', w = WBlocksCache None :: w' /\ ~~ has is_cache_write w' /\
             _blocks_cache st' = None.
Proof.
  rewrite load_all_run.
  case: (current_manifest d st) => [m|]; last by exists [::].
  move: (loop_direct_frame d m (mk_loader (validate_integrity st) (Some m) (_packages st) None)).
  case: (loop_direct _ _ _) => [[st' w] r] [_ [_ [Hc Hw]]].
  have Hwm : ~~ has is_cache_write (if _manifest st is Some _ then [::] else [:: WManifest m])
    by case: (_manifest st).
  by case: r => [_|e] /=; eexists; (split; [reflexivity | rewrite has_cat negb_or Hwm Hw]).
Qed.

(** C1: a validating loader that loaded both packages, then
    [load_all_packages] after [a.json] changed on disk: the call raises
    [IntegrityError] for segment "A", and "A" is still cached. *)
Lemma integrity_error_keeps_cached_segment :
  validate_integrity st_loaded = true /\
  Py.dict_get (_packages st_loaded) "A" = Some pA /\
  outcome_of load_all_packages disk_tampered st_loaded =
    Raise (IntegrityError "A" (hash_integridade metaA)
                          (Sha256.hexdigest (file_bytes file_a_tampered))) /\
  Py.dict_get (_packages (after load_all_packages disk_tampered st_loaded)) "A" = Some pA.
Proof. vm_compute; repeat split. Qed.

Lemma load_all_packages_integrity_error_witness :
  validate_integrity st_loaded = true /\
  current_manifest disk_tampered st_loaded = Some (cat [::] (metaA :: [:: metaB])) /\
  all (fun m => isSome (meta_loads true disk_tampered m)) [::] /\
  Py.dict_get (disk_files disk_tampered) (file metaA) = Some file_a_tampered /\
  String.eqb (Sha256.hexdigest (file_bytes file_a_tampered)) (hash_integridade metaA) = false /\
  let '(st', _, r) := load_all_packages disk_tampered st_loaded in
  r = Raise (IntegrityError (segmento metaA) (hash_integridade metaA)
                            (Sha256.hexdigest (file_bytes file_a_tampered))) /\
  _packages st' = pk_after true disk_tampered [::] (_packages st_loaded) /\
  (~~ has (fun m => String.eqb (segmento m) (segmento metaA)) [::] ->
   Py.dict_get (_packages st') (segmento metaA) =
   Py.dict_get (_packages st_loaded) (segmento metaA)).
Proof.
  have H1 : validate_integrity st_loaded = true by vm_compute; reflexivity.
  have H2 : current_manifest disk_tampered st_loaded = Some (cat [::] (metaA :: [:: metaB]))
    by vm_compute; reflexivity.
  have H3 : all (fun m => isSome (meta_loads true disk_tampered m)) [::] by [].
  have H4 : Py.dict_get (disk_files disk_tampered) (file metaA) = Some file_a_tampered
    by reflexivity.
  have H5 : String.eqb (Sha256.hexdigest (file_bytes file_a_tampered)) (hash_integridade metaA)
            = false by vm_compute; reflexivity.
  split; [exact H1|]; split; [exact H2|]; split; [exact H3|]; split; [exact H4|].
  split; [exact H5|].
  exact (@load_all_packages_integrity_error disk_tampered st_loaded [::] metaA [:: metaB]
           file_a_tampered H1 H2 H3 H4 H5).
Defined.

(** C2: [load_package("B")] and then [load_all_packages]: the blocks come
    back as B's then A's, while the manifest lists A first. *)
Lemma all_blocks_follow_insertion_order :
  outcome_of load_all_packages disk1 st_b_first = Ok [:: ("B", pB); ("A", pA)] /\
  outcome_of _all_blocks disk1 (after load_all_packages disk1 st_b_first)
    = Ok [:: bB1; bA1; bA2] /\
  disk_manifest disk1 = Some [:: metaA; metaB] /\
  flatten (map (meta_blocks true disk1) [:: metaA; metaB]) = [:: bA1; bA2; bB1].
Proof. vm_compute; repeat split. Qed.

Lemma load_all_packages_blocks_witness :
  current_manifest disk1 (init_loader true) = Some [:: metaA; metaB] /\
  all (fun meta => isSome (meta_loads true disk1 meta)) [:: metaA; metaB] /\
  let '(st', _, r) := load_all_packages disk1 (init_loader true) in
  r = Ok (_packages st') /\
  _packages st' = pk_after true disk1 [:: metaA; metaB] [::] /\
  (exists w, _all_blocks disk1 st' = (with_cache st', w, Ok (flat_blocks (_packages st')))) /\
  ([::] = [::] :> list (string * package) -> distinct_segments [:: metaA; metaB] ->
   flat_blocks (_packages st') = flatten (map (meta_blocks true disk1) [:: metaA; metaB])).
Proof.
  have H1 : current_manifest disk1 (init_loader true) = Some [:: metaA; metaB] by reflexivity.
  have H2 : all (fun meta => isSome (meta_loads (validate_integrity (init_loader true)) disk1 meta))
                [:: metaA; metaB] by vm_compute; reflexivity.
  split; [exact H1|]; split; [exact H2|].
  exact (@load_all_packages_blocks disk1 (init_loader true) _ H1 H2).
Defined.

(** C6: [b.json] is absent, but [a.json] comes first and fails its
    integrity check, so the call raises [IntegrityError], not the
    missing-file error. *)
Lemma missing_file_after_integrity_error :
  Py.dict_get (disk_files disk_tampered_missing) (file metaB) = None /\
  outcome_of load_all_packages disk_tampered_missing (init_loader true) =
    Raise (IntegrityError "A" (hash_integridade metaA)
                          (Sha256.hexdigest (file_bytes file_a_tampered))).
Proof. vm_compute; repeat split. Qed.

Lemma load_all_packages_missing_file_witness :
  current_manifest disk_missing_b (init_loader true) = Some (cat [:: metaA] (metaB :: [::])) /\
  all (fun m => isSome (meta_loads true disk_missing_b m)) [:: metaA] /\
  Py.dict_get (disk_files disk_missing_b) (file metaB) = None /\
  let '(st', _, r) := load_all_packages disk_missing_b (init_loader true) in
  r = Raise (KnowledgeLoaderError (PackageFileNotFound (file metaB))) /\
  _packages st' = pk_after true disk_missing_b [:: metaA] [::] /\
  all (fun m => isSome (Py.dict_get (_packages st') (segmento m))) [:: metaA].
Proof.
  have H1 : current_manifest disk_missing_b (init_loader true)
            = Some (cat [:: metaA] (metaB :: [::])) by reflexivity.
  have H2 : all (fun m => isSome (meta_loads (validate_integrity (init_loader true))
                                             disk_missing_b m)) [:: metaA]
    by vm_compute; reflexivity.
  have H3 : Py.dict_get (disk_files disk_missing_b) (file metaB) = None by reflexivity.
  split; [exact H1|]; split; [exact H2|]; split; [exact H3|].
  exact (@load_all_packages_missing_file disk_missing_b (init_loader true)
           [:: metaA] metaB [::] H1 H2 H3).
Defined.

(** C8: the assignments of [load_all_packages] on a fresh loader, in
    order: the cache first, then the manifest and the packages; and after
    a pass that raises, the cache is left at [None]. *)
Lemma load_all_log_order :
  log_of load_all_packages disk1 (init_loader true) =
    [:: WBlocksCache None; WManifest [:: metaA; metaB]; WPackage "A" pA; WPackage "B" pB] /\
  _blocks_cache (with_cache st_loaded) = Some [:: bA1; bA2; bB1] /\
  outcome_of load_all_packages disk_tampered (with_cache st_loaded) =
    Raise (IntegrityError "A" (hash_integridade metaA)
                          (Sha256.hexdigest (file_bytes file_a_tampered))) /\
  _blocks_cache (after load_all_packages disk_tampered (with_cache st_loaded)) = None.
Proof. vm_compute; repeat split. Qed.

End LoadAll.

(** ** load_package and the states a loader can reach *)

Module LoadPackage.
Import Loader View Scenario LoadAll.

Lemma load_package_loop_frame s metas d st m0 :
  _manifest st = Some m0 ->
  let '(st', _, _) := load_package_loop s metas d st in
  _manifest st' = Some m0 /\
  forall x, isSome (Py.dict_get (_packages st') x) ->
  isSome (Py.dict_get (_packages st) x) || has (fun meta => String.eqb (segmento meta) x) metas.
Proof.
  move=> Hm; elim: metas st Hm => [|meta rest IH] st Hm /=.
    rewrite /list_segments bind_run bind_run manifest_run Hm /=.
    by split; last by move=> x ->.
  case E: (String.eqb (segmento meta) s); last first.
    move: (IH st Hm); case: (load_package_loop s rest d st) => [[st' w] r] [-> H].
    split; first by [].
    by move=> x /H /orP [->|->]; rewrite ?orbT.
  move/String.eqb_eq: E => E.
  rewrite bind_run /= bind_run.
  case Hp: (isSome (Py.dict_get (_packages st) s)) => /=.
    rewrite bind_run /=.
    by case: (Py.dict_get (_packages st) s) => [p|] /=; split=> // x ->.
  rewrite bind_run /= bind_run.
  have Hins : forall p x,
      isSome (Py.dict_get (Py.dict_set (_packages st) s p) x) ->
      [|| isSome (Py.dict_get (_packages st) x), String.eqb (segmento meta) x
        | has (fun meta => String.eqb (segmento meta) x) rest].
    move=> p x; rewrite DictFacts.dict_get_set.
    case Hx: (String.eqb x s); last by move=> ->.
    by move/String.eqb_eq: Hx => ->; rewrite -E String.eqb_refl orbT.
  case Hvi: (validate_integrity st).
    rewrite validate_hash_run /=.
    case Ef: (Py.dict_get (disk_files d) (file meta)) => [f|] /=; last by split=> // x ->.
    case: (String.eqb _ _) => /=; last by split=> // x ->.
    rewrite bind_run json_load_run Ef /=.
    case: (file_json f) => [p|] /=; last by split=> // x ->.
    rewrite ?bind_run /= DictFacts.dict_get_set String.eqb_refl /=.
    by split=> // x /Hins.
  rewrite /ret /= bind_run json_load_run /=.
  case: (Py.dict_get (disk_files d) (file meta)) => [f|] /=; last by split=> // x ->.
  case: (file_json f) => [p|] /=; last by split=> // x ->.
  rewrite ?bind_run /= DictFacts.dict_get_set String.eqb_refl /=.
  by split=> // x /Hins.
Qed.

Lemma bind_unit_state {A} (m : M A) d st :
  let '(st', _, _) := bind m (fun _ => ret tt) d st in
  st' = (let '(st1, _, _) := m d st in st1).
Proof. by rewrite bind_run; case: (m d st) => [[? ?] [?|?]]. Qed.

Lemma covers_manifest d st :
  manifest_covers st ->
  let '(st', _, r) := manifest d st in
  manifest_covers st' /\ forall m, r = Ok m -> _manifest st' = Some m.
Proof.
  move=> Hc; rewrite manifest_run.
  case Hm: (_manifest st) => [m|]; first by split=> // m' [<-].
  case: (disk_manifest d) => [m|] //=.
  split=> [x /Hc [m' []]|m' [<-]] //.
  by rewrite Hm.
Qed.

Lemma covers_load_all d st :
  manifest_covers st -> let '(st', _, _) := load_all_packages d st in manifest_covers st'.
Proof.
  move=> Hc; rewrite load_all_run.
  case Hcm: (current_manifest d st) => [m|] /=; last by [].
  set st1 := mk_loader (validate_integrity st) (Some m) (_packages st) None.
  have Hc1 : manifest_covers st1.
    move=> x /Hc [m0 [Hm0 Hx]]; exists m; split=> //.
    by move: Hcm; rewrite /current_manifest Hm0 => -[<-].
  move: (loop_direct_frame d m st1) (loop_direct_keys d m st1).
  case: (loop_direct d m st1) => [[st' w] r] [_ [Hman _]] Hkeys.
  have H : manifest_covers st'.
    move=> x /Hkeys /orP [/Hc1 [m1 [Hm1 Hx]]|Hx]; exists m; rewrite Hman //.
    by move: Hm1 Hx => /= [->].
  by case: r.
Qed.

Lemma covers_load_package s d st :
  manifest_covers st -> let '(st', _, _) := load_package s d st in manifest_covers st'.
Proof.
  move=> Hc; rewrite /load_package bind_run.
  move: (covers_manifest d Hc).
  case: (manifest d st) => [[st1 w1] [m|e]] [Hc1 Hm1] //.
  have Hm : _manifest st1 = Some m by apply: Hm1.
  move: (load_package_loop_frame s m d Hm).
  case: (load_package_loop s m d st1) => [[st' w] r] [Hman Hkeys].
  have H : manifest_covers st'.
    move=> x /Hkeys /orP [/Hc1 [m1 [Hm' Hx]]|Hx]; exists m; rewrite Hman //.
    by move: Hm' Hx; rewrite Hm => -[->].
  by case: r.
Qed.

Lemma covers_query seg d st :
  manifest_covers st -> let '(st', _, _) := query_source seg d st in manifest_covers st'.
Proof.
  move=> Hc; have [w Hw] := LoaderRun.all_blocks_run d st.
  case: seg => [s|] /=; last by rewrite Hw.
  case: (String.eqb s ""); first by rewrite Hw.
  rewrite /get_blocks_by_segment bind_run /= bind_run.
  have Htail : forall st1, manifest_covers st1 ->
      let '(st', _, _) :=
        (pk' <- gets _packages ;;
         match Py.dict_get pk' s with
         | Some p => ret (pkg_blocks p)
         | None => raise (KeyError s)
         end) d st1 in manifest_covers st'.
    by move=> st1 H1; rewrite bind_run /=; case: (Py.dict_get _ _).
  case: (isSome (Py.dict_get (_packages st) s)) => /=.
    by move: (Htail st Hc); case: (_ d st) => [[? ?] ?].
  rewrite bind_run.
  move: (covers_load_package s d Hc).
  case: (load_package s d st) => [[st1 w1] [p|e]] H1 //=.
  by move: (Htail st1 H1); case: (_ d st1) => [[? ?] ?].
Qed.

Lemma covers_reload d st :
  manifest_covers st -> let '(st', _, _) := reload d st in manifest_covers st'.
Proof.
  move=> _; rewrite /reload bind_run /reset_caches /=.
  set st0 := mk_loader _ None [::] None.
  have Hc0 : manifest_covers st0 by [].
  move: (bind_unit_state load_all_packages d st0) (covers_load_all d Hc0).
  case: (bind load_all_packages _ d st0) => [[st' w] r] ->.
  by case: (load_all_packages d st0) => [[? ?] ?].
Qed.

Lemma reachable_covers vi st : reachable vi st -> manifest_covers st.
Proof.
  elim=> [|o d st0 st' w r _ IH Hrun]; first by [].
  have Hst : forall A (m : M A),
      (let '(st1, _, _) := m d st0 in manifest_covers st1) ->
      bind m (fun _ => ret tt) d st0 = (st', w, r) -> manifest_covers st'.
    move=> A m Hm Hr; move: (bind_unit_state m d st0); rewrite Hr => ->.
    by move: Hm; case: (m d st0) => [[? ?] ?].
  case: o Hrun => [|s||seg|] /= Hrun.
  - exact: (Hst _ _ (covers_load_all d IH) Hrun).
  - exact: (Hst _ _ (covers_load_package s d IH) Hrun).
  - by move: (covers_reload d IH); rewrite Hrun.
  - exact: (Hst _ _ (covers_query seg d IH) Hrun).
  - apply: (Hst _ _ _ Hrun).
    by move: (covers_manifest d IH); case: (manifest d st0) => [[? ?] ?] [].
Qed.

Lemma load_package_loop_cached seg p metas d st :
  Py.dict_get (_packages st) seg = Some p ->
  has (fun meta => String.eqb (segmento meta) seg) metas ->
  load_package_loop seg metas d st = (st, [::], Ok p).
Proof.
  move=> Hp; elim: metas => [|meta rest IH] //=.
  case: (String.eqb (segmento meta) seg) => /=; last exact: IH.
  by move=> _; rewrite bind_run /= Hp /= bind_run /ret /= bind_run /= Hp.
Qed.


(** C10.  In every state a [KnowledgeLoader] can reach (whatever the
    files on disk were at each earlier call), when [segment] is in the
    package cache, [load_package(segment)] returns the cached package,
    assigns nothing and leaves the state as it is, whatever the disk holds
    now: it reads no file, checks no hash and keeps the flat block cache. *)
Theorem load_package_cached vi st segment p d :
  reachable vi st ->
  Py.dict_get (_packages st) segment = Some p ->
  load_package segment d st = (st, [::], Ok p).
Proof.
  move=> Hr Hp.
  have [m [Hm Hhas]] : exists m, _manifest st = Some m /\
                       has (fun meta => String.eqb (segmento meta) segment) m.
    by apply: (reachable_covers Hr); rewrite Hp.
  rewrite /load_package bind_run manifest_run Hm /=.
  by rewrite (load_package_loop_cached d Hp Hhas).
Qed.

Lemma load_package_cached_witness :
  reachable true st_loaded /\
  Py.dict_get (_packages st_loaded) "A" = Some pA /\
  load_package "A" disk_tampered st_loaded = (st_loaded, [::], Ok pA).
Proof.
  have H1 : reachable true st_loaded.
    apply: (@reach_step true OpLoadAll disk1 (init_loader true) st_loaded
              (cat (log_of load_all_packages disk1 (init_loader true)) [::]) (Ok tt)).
      exact: reach_init.
    by vm_compute.
  have H2 : Py.dict_get (_packages st_loaded) "A" = Some pA by vm_compute.
  split; [exact H1|]; split; [exact H2|].
  exact (@load_package_cached true st_loaded "A" pA disk_tampered H1 H2).
Defined.

End LoadPackage.

(** ** prepare_for_vectorization *)

Module Vectorize.
Import Loader View Scenario LoadAll.

Lemma vector_docs_filter src :
  vector_docs src =
  if all (fun b => isSome (block_id b)) (filter is_vector_ready src)
  then Ok (map (fun b => make_doc (odflt "" (block_id b)) b) (filter is_vector_ready src))
  else Raise (KeyError "id").
Proof.
  elim: src => [|b rest IH] //=.
  rewrite /is_vector_ready; case: (odflt false (vector_ready b)) => /=; last exact: IH.
  case: (block_id b) => [i|] //=.
  by rewrite -/is_vector_ready IH; case: (all _ _).
Qed.

Lemma count_has_id_pos s1 s2 :
  all (fun b => if block_id b is Some j then 0 < count (has_id j) (cat s1 s2) else true) s2.
Proof.
  elim: s2 s1 => [|b s2 IH] s1 //=.
  rewrite -cat_rcons IH andbT.
  case Hb: (block_id b) => [j|] //.
  rewrite cat_rcons count_cat /= {2}/has_id Hb String.eqb_refl.
  by rewrite addnCA add1n ltnS leq0n.
Qed.

(** C7 (as amended).  [prepare_for_vectorization(segment)] keeps the state
    and the assignments of the source query ([_all_blocks] or
    [get_blocks_by_segment]); when the source [src] comes back, the
    documents are, in order, one per block of [src] whose [vector_ready]
    is true, each built from that block under the block's id, and the call
    raises [KeyError] when one of these blocks has no id.  A document's id
    matches exactly one block of [src] when no two blocks of [src] share an
    id. *)
Theorem prepare_for_vectorization_spec segment d st :
  let '(st1, w1, rs) := query_source segment d st in
  let '(st', w, r) := prepare_for_vectorization segment d st in
  st' = st1 /\ w = cat w1 [::] /\
  match rs with
  | Raise e => r = Raise e
  | Ok src =>
      let ready := filter is_vector_ready src in
      if all (fun b => isSome (block_id b)) ready then
        r = Ok (map (fun b => make_doc (odflt "" (block_id b)) b) ready) /\
        ((forall i, count (has_id i) src <= 1) ->
         all (fun doc => count (has_id (doc_id doc)) src == 1)
             (map (fun b => make_doc (odflt "" (block_id b)) b) ready))
      else r = Raise (KeyError "id")
  end.
Proof.
  rewrite /prepare_for_vectorization bind_run.
  case: (query_source segment d st) => [[st1 w1] [src|e]] /=; last by rewrite cats0.
  rewrite vector_docs_filter.
  case Hall: (all _ _) => /=; last by [].
  split; first by [].
  split; first by [].
  split; first by [].
  move=> Huniq; rewrite all_map.
  have := count_has_id_pos [::] src; rewrite /= => Hpos.
  move: Hall; rewrite !all_filter => Hall.
  have := all_predI (fun b => is_vector_ready b ==> isSome (block_id b))
                    (fun b => if block_id b is Some j then 0 < count (has_id j) src else true) src.
  rewrite Hall Hpos /= => Hboth.
  apply: sub_all Hboth => b /= /andP [Hv Hp].
  apply/implyP => /(implyP Hv).
  case: (block_id b) Hp => [j|] //= Hp _.
  by rewrite eqn_leq Huniq Hp.
Qed.

(** C7: two vector-ready blocks of two segments share the id "dup": both
    documents have the id "dup", which matches two source blocks. *)
Lemma shared_id_two_docs :
  match outcome_of (prepare_for_vectorization None) disk1 st_dup with
  | Ok docs => map doc_id docs
  | Raise _ => [::]
  end = [:: "dup"; "dup"] /\
  state_blocks st_dup = [:: bDup1; bDup2] /\
  count (has_id "dup") (state_blocks st_dup) = 2.
Proof. vm_compute; repeat split. Qed.

End Vectorize.

(** ** DeltaDetector.has_significant_changes *)

Module DeltaProofs.
Import Delta Scenario.

Lemma foldl_inv {A B} (P : A -> Prop) (f : A -> B -> A) :
  (forall a b, P a -> P (f a b)) -> forall s a, P a -> P (foldl f a s).
Proof. by move=> Hf; elim=> [|b s IH] a Ha //=; apply: IH; apply: Hf. Qed.

Lemma In_has {T} (p : pred T) x s : List.In x s -> p x -> has p s.
Proof. by elim: s => [|y s IH] //= [<- ->|/IH H /H ->]; rewrite ?orbT. Qed.

Lemma has_none {T} (p : pred T) s : (forall x, List.In x s -> ~~ p x) -> has p s = false.
Proof.
  elim: s => [|y s IH] //= H.
  by rewrite (negbTE (H y (or_introl erefl))) IH // => x Hx; apply: H; right.
Qed.

(** Every entry of the index stores the hash of its own content. *)
Lemma index_hash files e :
  List.In e (Py.dict_values (_build_knowledge_index files)) ->
  ie_hash e = _hash_text (ie_content e).
Proof.
  pose P := fun idx : list (string * index_entry) =>
    forall e, List.In e (Py.dict_values idx) -> ie_hash e = _hash_text (ie_content e).
  have Hblock : forall idx b, P idx -> P (index_block idx b).
    move=> idx b H e'; rewrite /index_block.
    case: (String.eqb _ _); first exact: H.
    by move=> Hin; case: (DictFacts.dict_values_set Hin) => [->|/H].
  have : P (_build_knowledge_index files).
    rewrite /_build_knowledge_index.
    apply: (@foldl_inv _ _ P) => [idx f H|]; last by move=> ? [].
    case: f => [blocks|] //; exact: (@foldl_inv _ _ P).
  exact.
Qed.

Lemma max_similarity_le (f : index_entry -> Q) t m0 l :
  Qle_bool m0 t -> (forall e, List.In e l -> Qle_bool (f e) t) ->
  Qle_bool (foldl (fun m e => if Qlt_bool m (f e) then f e else m) m0 l) t.
Proof.
  elim: l m0 => [|e l IH] m0 //= Hm Hl.
  apply: IH => [|e' He']; last by apply: Hl; right.
  by case: (Qlt_bool m0 (f e)) => //; apply: Hl; left.
Qed.

(** C3 (as amended).  For the detector built from any globbed files:
    content whose text ([content], or [text] when [content] is empty) is
    equal, after [lower()] and [strip()], to the content of an indexed
    block is not significant; and content with a non-empty text whose
    normalised hash equals no entry's hash and whose similarity with every
    entry is at most 0.85 is significant (the keyword overlap is 0.0 in the
    source, so keywords play no part). *)
Theorem has_significant_changes_spec files :
  let det := init_detector files in
  (forall nc e,
     List.In e (Py.dict_values (knowledge_index det)) ->
     Py.strip (Py.lower (content_text nc)) = Py.strip (Py.lower (ie_content e)) ->
     has_significant_changes det nc = false) /\
  (forall nc,
     content_text nc <> "" ->
     (forall e, List.In e (Py.dict_values (knowledge_index det)) ->
        ie_hash e <> _hash_text (content_text nc) /\
        Qle_bool (_calculate_similarity (content_text nc) (ie_content e)) (85 # 100)) ->
     has_significant_changes det nc = true).
Proof.
  move=> det; split.
    move=> nc e He Hnorm.
    rewrite /has_significant_changes; case: nc Hnorm => [|kv nc] Hnorm //.
    case: (String.eqb _ "") => //.
    rewrite (In_has (p := fun e => String.eqb (ie_hash e) (_hash_text (content_text (kv :: nc)))) He) //.
    by rewrite (index_hash He) /_hash_text Hnorm String.eqb_refl.
  move=> nc Hne Hall.
  rewrite /has_significant_changes.
  case: nc Hne Hall => [|kv nc] Hne Hall; first by case: Hne.
  have -> : String.eqb (content_text (kv :: nc)) "" = false.
    by apply/negbTE/negP => /String.eqb_eq.
  rewrite has_none; first by move=> e /Hall [Hh _]; apply/negP => /String.eqb_eq.
  have -> : similarity_threshold det = 85 # 100 by [].
  rewrite {1}/Qlt_bool max_similarity_le //.
  by move=> e /Hall [_ ->].
Qed.

(** C3: an indexed block with an id and no content, and new content made of
    one space: the text is not empty, it has no keywords, its similarity
    with the entry is 0 (the entry's content is empty), and yet the change
    is reported as not significant (the two normalised hashes are equal). *)
Lemma blank_content_not_significant :
  content_text nc_blank = " " /\
  _extract_keywords (content_text nc_blank) 10 = [::] /\
  map ie_keywords (Py.dict_values (knowledge_index (init_detector files_blank))) = [:: [::]] /\
  map (fun e => _calculate_similarity (content_text nc_blank) (ie_content e))
      (Py.dict_values (knowledge_index (init_detector files_blank))) = [:: 0%Q] /\
  has_significant_changes (init_detector files_blank) nc_blank = false.
Proof. vm_compute; repeat split. Qed.

Lemma has_significant_changes_spec_witness :
  content_text nc_new <> "" /\
  (forall e, List.In e (Py.dict_values (knowledge_index (init_detector files_one))) ->
     ie_hash e <> _hash_text (content_text nc_new) /\
     Qle_bool (_calculate_similarity (content_text nc_new) (ie_content e)) (85 # 100)) /\
  has_significant_changes (init_detector files_one) nc_new = true.
Proof.
  have H1 : content_text nc_new <> "" by vm_compute; discriminate.
  have H2 : forall e, List.In e (Py.dict_values (knowledge_index (init_detector files_one))) ->
     ie_hash e <> _hash_text (content_text nc_new) /\
     Qle_bool (_calculate_similarity (content_text nc_new) (ie_content e)) (85 # 100).
    move=> e; rewrite /=; case=> [<-|[]].
    split; [vm_compute; discriminate | vm_compute; reflexivity].
  split; [exact H1|]; split; [exact H2|].
  exact (proj2 (has_significant_changes_spec files_one) nc_new H1 H2).
Defined.

(** C9.  For every detector, an empty [new_content] dict, or one whose
    ["content"] and ["text"] values are both empty or absent, is reported
    as not significant; the result does not depend on the index. *)
Theorem has_significant_changes_empty det nc :
  nc = [::] \/
  (odflt "" (Py.dict_get nc "content") = "" /\ odflt "" (Py.dict_get nc "text") = "") ->
  has_significant_changes det nc = false.
Proof.
  case=> [->|[Hc Ht]] //.
  have Htext : content_text nc = "" by rewrite /content_text Hc Ht.
  by rewrite /has_significant_changes Htext; case: nc {Hc Ht Htext}.
Qed.

Lemma has_significant_changes_empty_witness :
  ([:: ("content", ""); ("text", "")] = [::] \/
   (odflt "" (Py.dict_get [:: ("content", ""); ("text", "")] "content") = "" /\
    odflt "" (Py.dict_get [:: ("content", ""); ("text", "")] "text") = "")) /\
  has_significant_changes (init_detector files_one) [:: ("content", ""); ("text", "")] = false.
Proof.
  have H : [:: ("content", ""); ("text", "")] = [::] \/
           (odflt "" (Py.dict_get [:: ("content", ""); ("text", "")] "content") = "" /\
            odflt "" (Py.dict_get [:: ("content", ""); ("text", "")] "text") = "")
    by right; split; reflexivity.
  split; [exact H|].
  exact (@has_significant_changes_empty (init_detector files_one) _ H).
Defined.

End DeltaProofs.




(** ** More facts on the dict model *)

Module DictMore.

Lemma dict_get_In_values {V} (dt : list (string * V)) k v :
  Py.dict_get dt k = Some v -> List.In v (Py.dict_values dt).
Proof.
  elim: dt => [|[k' v'] dt IH] //=.
  case: (String.eqb k k') => [[->]|/IH]; by [left | right].
Qed.

Lemma dict_get_notin {V} (dt : list (string * V)) k :
  ~ List.In k (map fst dt) -> Py.dict_get dt k = None.
Proof.
  elim: dt => [|[k' v'] dt IH] //= Hn.
  case E: (String.eqb k k'); first by move/String.eqb_eq: E => E; case: Hn; left.
  by apply: IH => H; apply: Hn; right.
Qed.

Lemma dict_set_keys_in {V} (dt : list (string * V)) k v x :
  List.In x (map fst (Py.dict_set dt k v)) -> x = k \/ List.In x (map fst dt).
Proof.
  elim: dt => [|[k' v'] dt IH] /=; first by case=> [->|[]]; left.
  case E: (String.eqb k k') => /=.
  - by case=> [<-|H]; right; [left | right].
  - by case=> [<-|/IH [->|H]]; [right; left | left | right; right].
Qed.

Lemma dict_set_keys_present {V} (dt : list (string * V)) k v :
  isSome (Py.dict_get dt k) -> map fst (Py.dict_set dt k v) = map fst dt.
Proof.
  elim: dt => [|[k' v'] dt IH] //=.
  case E: (String.eqb k k') => /=; first by [].
  by move/IH => ->.
Qed.

Lemma dict_set_nodup {V} (dt : list (string * V)) k v :
  List.NoDup (map fst dt) -> List.NoDup (map fst (Py.dict_set dt k v)).
Proof.
  elim: dt => [|[k' v'] dt IH] /=; first by move=> _; constructor; [case | constructor].
  move=> H; inversion H as [|? ? Hn Hd]; subst.
  case E: (String.eqb k k') => /=; first by constructor.
  constructor; last exact: IH.
  move=> Hin; case: (dict_set_keys_in Hin) => [Hk|//].
  by move: E; rewrite Hk String.eqb_refl.
Qed.

Lemma dict_ext {V} (d1 d2 : list (string * V)) :
  List.NoDup (map fst d1) -> map fst d1 = map fst d2 ->
  (forall k, Py.dict_get d1 k = Py.dict_get d2 k) -> d1 = d2.
Proof.
  elim: d1 d2 => [|[k1 v1] t1 IH] [|[k2 v2] t2] //= Hnd [Hk Ht] Hget.
  subst k2; inversion Hnd as [|? ? Hn Hd]; subst.
  have := Hget k1; rewrite String.eqb_refl => -[->].
  congr cons; apply: IH => // k.
  case E: (String.eqb k k1); last by have := Hget k; rewrite E.
  move/String.eqb_eq: E => ->.
  by rewrite !dict_get_notin // -Ht.
Qed.

End DictMore.

(** ** load_all_packages run twice, reload, and the module-level functions *)

Module LoaderMore.
Import Loader View Scenario LoadAll LoadPackage Convenience ExtraViews Queries.

Lemma pk_after_get vi d metas pk k :
  Py.dict_get (pk_after vi d metas pk) k = foldl (get_step vi d k) (Py.dict_get pk k) metas.
Proof.
  elim: metas pk => [|meta rest IH] pk //=.
  rewrite -/(pk_after vi d rest _) IH /get_step.
  case: (meta_loads vi d meta) => [p|] //.
  by rewrite DictFacts.dict_get_set.
Qed.

Lemma get_step_fold vi d k metas :
  (forall o, foldl (get_step vi d k) o metas = o) \/
  (exists c, forall o, foldl (get_step vi d k) o metas = c).
Proof.
  elim/last_ind: metas => [|metas meta IH]; first by left.
  have Hstep : (forall o, get_step vi d k o meta = o) \/ (exists c, forall o, get_step vi d k o meta = c).
    rewrite /get_step; case: (meta_loads vi d meta) => [p|]; last by left.
    by case: (String.eqb _ _); [right; exists (Some p) | left].
  case: IH => [Hid|[c Hc]].
  - case: Hstep => [Hs|[c Hc]].
      by left => o; rewrite foldl_rcons Hid.
    by right; exists c => o; rewrite foldl_rcons.
  - case: Hstep => [Hs|[c' Hc']].
      by right; exists c => o; rewrite foldl_rcons Hc.
    by right; exists c' => o; rewrite foldl_rcons.
Qed.

Lemma pk_after_keys vi d metas pk :
  all (fun m => isSome (Py.dict_get pk (segmento m))) metas ->
  map fst (pk_after vi d metas pk) = map fst pk.
Proof.
  elim: metas pk => [|meta rest IH] pk //= /andP [Hm Hrest].
  rewrite -/(pk_after vi d rest _).
  case: (meta_loads vi d meta) => [p|]; last exact: IH.
  rewrite IH ?DictMore.dict_set_keys_present //.
  apply: sub_all Hrest => m /= H.
  by rewrite DictFacts.dict_get_set; case: (String.eqb _ _).
Qed.

Lemma pk_after_nodup vi d metas pk :
  List.NoDup (map fst pk) -> List.NoDup (map fst (pk_after vi d metas pk)).
Proof.
  elim: metas pk => [|meta rest IH] pk //= H.
  rewrite -/(pk_after vi d rest _); apply: IH.
  case: (meta_loads vi d meta) => [p|] //.
  exact: DictMore.dict_set_nodup.
Qed.

Lemma pk_after_idem vi d metas pk :
  List.NoDup (map fst pk) ->
  all (fun m => isSome (meta_loads vi d m)) metas ->
  pk_after vi d metas (pk_after vi d metas pk) = pk_after vi d metas pk.
Proof.
  move=> Hnd Hall.
  apply: DictMore.dict_ext.
  - by do 2 apply: pk_after_nodup.
  - exact/pk_after_keys/pk_after_present.
  - move=> k; rewrite !pk_after_get.
    by case: (get_step_fold vi d k metas) => [H|[c H]]; rewrite !H.
Qed.

(** A pass over a manifest whose descriptors all load, then a second one. *)
Lemma load_all_twice_run d st m :
  current_manifest d st = Some m ->
  all (fun meta => isSome (meta_loads (validate_integrity st) d meta)) m ->
  List.NoDup (map fst (_packages st)) ->
  let st1 := mk_loader (validate_integrity st) (Some m)
                       (pk_after (validate_integrity st) d m (_packages st)) None in
  (exists w, load_all_packages d st = (st1, w, Ok (_packages st1))) /\
  (exists w, load_all_packages d st1 = (st1, w, Ok (_packages st1))).
Proof.
  move=> Hm Hall Hnd st1.
  have Hpass : forall st0, validate_integrity st0 = validate_integrity st ->
      current_manifest d st0 = Some m ->
      exists w, load_all_packages d st0 =
        (mk_loader (validate_integrity st) (Some m)
                   (pk_after (validate_integrity st) d m (_packages st0)) None,
         w, Ok (pk_after (validate_integrity st) d m (_packages st0))).
    move=> st0 Hvi Hm0; rewrite load_all_run Hm0 /=.
    have Hall0 : all (fun meta => isSome (meta_loads (validate_integrity
                   (mk_loader (validate_integrity st0) (Some m) (_packages st0) None)) d meta)) m
      by rewrite /= Hvi.
    have [w Hw] := @loop_direct_cat d m [::]
                     (mk_loader (validate_integrity st0) (Some m) (_packages st0) None) Hall0.
    rewrite cats0 in Hw; rewrite Hw /prepend_log /= Hvi.
    by eexists.
  split; first exact: Hpass.
  have [w Hw] := Hpass st1 erefl erefl.
  exists w; rewrite Hw /st1 /= pk_after_idem //.
Qed.

(** X1. [load_all_packages] is idempotent. When every descriptor of the
    manifest loads, a second call on the unchanged files returns the same
    dict and leaves the loader in the state the first call left it in
    (the keys of a Python dict are distinct, the hypothesis on
    [_packages]). *)
Theorem load_all_packages_twice d st m :
  current_manifest d st = Some m ->
  all (fun meta => isSome (meta_loads (validate_integrity st) d meta)) m ->
  List.NoDup (map fst (_packages st)) ->
  let '(st1, _, r1) := load_all_packages d st in
  let '(st2, _, r2) := load_all_packages d st1 in
  st2 = st1 /\ r2 = r1.
Proof.
  move=> Hm Hall Hnd.
  have [[w1 ->] [w2 ->]] := load_all_twice_run Hm Hall Hnd.
  by [].
Qed.

Lemma load_all_packages_twice_witness :
  current_manifest disk1 (init_loader true) = Some [:: metaA; metaB] /\
  all (fun meta => isSome (meta_loads true disk1 meta)) [:: metaA; metaB] /\
  List.NoDup (map fst (_packages (init_loader true))) /\
  let '(st1, _, r1) := load_all_packages disk1 (init_loader true) in
  let '(st2, _, r2) := load_all_packages disk1 st1 in
  st2 = st1 /\ r2 = r1.
Proof.
  have H1 : current_manifest disk1 (init_loader true) = Some [:: metaA; metaB] by reflexivity.
  have H2 : all (fun meta => isSome (meta_loads (validate_integrity (init_loader true)) disk1 meta))
                [:: metaA; metaB] by vm_compute; reflexivity.
  have H3 : List.NoDup (map fst (_packages (init_loader true))) by constructor.
  split; [exact H1|]; split; [exact H2|]; split; [exact H3|].
  exact (@load_all_packages_twice disk1 (init_loader true) _ H1 H2 H3).
Defined.

(** X2. The module-level [load_all_packages()] on a fresh module (no
    [_default_loader] yet) builds a validating loader whose constructor
    already loads every package, then loads them again; when every
    descriptor loads, it returns the dict of a single pass, and the global
    holds the loader in the state a single pass leaves. *)
Theorem load_all_packages_fn_fresh d m :
  disk_manifest d = Some m ->
  all (fun meta => isSome (meta_loads true d meta)) m ->
  let '(st1, _, r1) := load_all_packages d (init_loader true) in
  let '(g, _, r) := load_all_packages_fn d None in
  g = Some st1 /\ r = r1.
Proof.
  move=> Hm Hall.
  have Hm' : current_manifest d (init_loader true) = Some m by rewrite /current_manifest /= Hm.
  have Hnd : List.NoDup (map fst (_packages (init_loader true))) by constructor.
  have [[w1 Hw1] [w2 Hw2]] := load_all_twice_run Hm' Hall Hnd.
  rewrite /load_all_packages_fn /module_call /_get_loader Hw1 Hw2.
  by [].
Qed.

Lemma load_all_packages_fn_fresh_witness :
  disk_manifest disk1 = Some [:: metaA; metaB] /\
  all (fun meta => isSome (meta_loads true disk1 meta)) [:: metaA; metaB] /\
  let '(st1, _, r1) := load_all_packages disk1 (init_loader true) in
  let '(g, _, r) := load_all_packages_fn disk1 None in
  g = Some st1 /\ r = r1.
Proof.
  have H1 : disk_manifest disk1 = Some [:: metaA; metaB] by reflexivity.
  have H2 : all (fun meta => isSome (meta_loads true disk1 meta)) [:: metaA; metaB]
    by vm_compute; reflexivity.
  split; [exact H1|]; split; [exact H2|].
  exact (@load_all_packages_fn_fresh disk1 _ H1 H2).
Defined.

Lemma load_package_loop_nomatch s metas d st m0 :
  _manifest st = Some m0 ->
  ~~ has (fun meta => String.eqb (segmento meta) s) metas ->
  load_package_loop s metas d st =
  (st, [::], Raise (KnowledgeLoaderError (SegmentNotInManifest s (map segmento m0)))).
Proof.
  move=> Hm; elim: metas => [|meta rest IH] /=.
    by move=> _; rewrite bind_run /list_segments bind_run manifest_run Hm.
  by case/norP => /negbTE -> /IH.
Qed.

Lemma load_package_unknown_run s d st m :
  current_manifest d st = Some m ->
  ~~ has (fun meta => String.eqb (segmento meta) s) m ->
  let '(st', w, r) := load_package s d st in
  r = Raise (KnowledgeLoaderError (SegmentNotInManifest s (map segmento m))) /\
  st' = mk_loader (validate_integrity st) (Some m) (_packages st) (_blocks_cache st) /\
  ~~ has is_package_write w /\ ~~ has is_cache_write w.
Proof.
  move=> Hm Hn; rewrite /load_package bind_run manifest_run.
  move: Hm; rewrite /current_manifest.
  case Hc: (_manifest st) => [m1|] /=.
    case=> E; subst m1.
    rewrite (load_package_loop_nomatch d Hc Hn) /=.
    by case: st Hc => vi m0 pk c /= ->.
  move=> Hd; rewrite Hd.
  have Hc1 : _manifest (mk_loader (validate_integrity st) (Some m) (_packages st) (_blocks_cache st))
             = Some m by [].
  by rewrite (load_package_loop_nomatch d Hc1 Hn).
Qed.

(** X4. [load_package] of a segment the manifest does not list raises
    [KnowledgeLoaderError] naming the segment and the manifest's
    segments ([list_segments()]); it reads no package file, and the only
    assignment it can make is caching the manifest. *)
Theorem load_package_unknown_segment s d st m :
  current_manifest d st = Some m ->
  ~~ has (fun meta => String.eqb (segmento meta) s) m ->
  let '(st', w, r) := load_package s d st in
  r = Raise (KnowledgeLoaderError (SegmentNotInManifest s (map segmento m))) /\
  st' = mk_loader (validate_integrity st) (Some m) (_packages st) (_blocks_cache st) /\
  ~~ has is_package_write w /\ ~~ has is_cache_write w.
Proof. exact: load_package_unknown_run. Qed.

Lemma load_package_unknown_segment_witness :
  current_manifest disk1 (init_loader true) = Some [:: metaA; metaB] /\
  ~~ has (fun meta => String.eqb (segmento meta) "C") [:: metaA; metaB] /\
  let '(st', w, r) := load_package "C" disk1 (init_loader true) in
  r = Raise (KnowledgeLoaderError (SegmentNotInManifest "C" (map segmento [:: metaA; metaB]))) /\
  st' = mk_loader (validate_integrity (init_loader true)) (Some [:: metaA; metaB])
                  (_packages (init_loader true)) (_blocks_cache (init_loader true)) /\
  ~~ has is_package_write w /\ ~~ has is_cache_write w.
Proof.
  have H1 : current_manifest disk1 (init_loader true) = Some [:: metaA; metaB] by reflexivity.
  have H2 : ~~ has (fun meta => String.eqb (segmento meta) "C") [:: metaA; metaB]
    by vm_compute; reflexivity.
  split; [exact H1|]; split; [exact H2|].
  exact (@load_package_unknown_segment "C" disk1 (init_loader true) _ H1 H2).
Defined.

(** X5. Once the manifest is cached, no public operation but [reload]
    changes it: later edits of the manifest file on disk are not seen
    until [reload]. *)
Theorem cached_manifest_kept o d st m :
  o <> OpReload -> _manifest st = Some m ->
  let '(st', _, _) := run_op o d st in _manifest st' = Some m.
Proof.
  move=> Ho Hm.
  have Hpkg : forall s st0, _manifest st0 = Some m ->
      let '(st', _, _) := load_package s d st0 in _manifest st' = Some m.
    move=> s st0 H0; rewrite /load_package bind_run manifest_run H0 /=.
    move: (load_package_loop_frame s m d H0).
    by case: (load_package_loop s m d st0) => [[? ?] ?] [].
  have Hunit : forall A (mm : M A), (let '(st1, _, _) := mm d st in _manifest st1 = Some m) ->
      let '(st', _, _) := bind mm (fun _ => ret tt) d st in _manifest st' = Some m.
    move=> A mm H; move: (bind_unit_state mm d st).
    by case: (bind mm _ d st) => [[st' w] r] ->; move: H; case: (mm d st) => [[? ?] ?].
  case: o Ho => [|s|//|seg|] _ /=; apply: Hunit.
  - rewrite load_all_run /current_manifest Hm /=.
    move: (loop_direct_frame d m (mk_loader (validate_integrity st) (Some m) (_packages st) None)).
    by case: (loop_direct _ _ _) => [[st' w] [?|?]] [_ [-> _]].
  - exact: Hpkg.
  - have [w Hw] := LoaderRun.all_blocks_run d st.
    case: seg => [s|] /=; last by rewrite Hw.
    case: (String.eqb s ""); first by rewrite Hw.
    rewrite /get_blocks_by_segment bind_run /= bind_run.
    have Htail : forall st1, _manifest st1 = Some m ->
        let '(st', _, _) :=
          (pk' <- gets _packages ;;
           match Py.dict_get pk' s with
           | Some p => ret (pkg_blocks p)
           | None => raise (KeyError s)
           end) d st1 in _manifest st' = Some m.
      by move=> st1 H1; rewrite bind_run /=; case: (Py.dict_get _ _).
    case: (isSome (Py.dict_get (_packages st) s)) => /=.
      by move: (Htail st Hm); case: (_ d st) => [[? ?] ?].
    rewrite bind_run.
    move: (Hpkg s st Hm).
    case: (load_package s d st) => [[st1 w1] [p|e]] H1 //=.
    by move: (Htail st1 H1); case: (_ d st1) => [[? ?] ?].
  - by rewrite manifest_run Hm.
Qed.

Lemma cached_manifest_kept_witness :
  OpLoadAll <> OpReload /\ _manifest st_loaded = Some [:: metaA; metaB] /\
  let '(st', _, _) := run_op OpLoadAll disk_tampered st_loaded in
  _manifest st' = Some [:: metaA; metaB].
Proof.
  have H1 : OpLoadAll <> OpReload by discriminate.
  have H2 : _manifest st_loaded = Some [:: metaA; metaB] by vm_compute; reflexivity.
  split; [exact H1|]; split; [exact H2|].
  exact (@cached_manifest_kept OpLoadAll disk_tampered st_loaded _ H1 H2).
Defined.

Lemma no_int_bind_unit {A} (mm : M A) d st :
  (let '(_, _, r) := mm d st in no_integrity_error r) ->
  let '(_, _, r) := bind mm (fun _ => ret tt) d st in no_integrity_error r.
Proof. by rewrite bind_run; case: (mm d st) => [[? ?] [?|?]]. Qed.

Lemma loop_direct_noint d metas st :
  validate_integrity st = false ->
  let '(_, _, r) := loop_direct d metas st in no_integrity_error r.
Proof.
  elim: metas st => [|meta rest IH] st Hvi //=.
  case: (Py.dict_get _ _) => [f|] //=.
  rewrite Hvi /=.
  case: (file_json f) => [p|] //=.
  move: (IH (put_packages st (Py.dict_set (_packages st) (segmento meta) p)) Hvi).
  by rewrite /prepend_log; case: (loop_direct _ _ _) => [[? ?] ?].
Qed.

Lemma load_all_noint d st :
  validate_integrity st = false ->
  let '(_, _, r) := load_all_packages d st in no_integrity_error r.
Proof.
  move=> Hvi; rewrite load_all_run.
  case: (current_manifest d st) => [m|] //=.
  move: (@loop_direct_noint d m (mk_loader (validate_integrity st) (Some m) (_packages st) None) Hvi).
  by case: (loop_direct _ _ _) => [[? ?] [?|?]].
Qed.

Lemma load_package_loop_noint s metas d st :
  validate_integrity st = false ->
  let '(_, _, r) := load_package_loop s metas d st in no_integrity_error r.
Proof.
  move=> Hvi; elim: metas => [|meta rest IH] /=.
    rewrite bind_run /list_segments bind_run manifest_run.
    case: (_manifest st) => [m|] //=.
    by case: (disk_manifest d) => [m|].
  case: (String.eqb (segmento meta) s) => //.
  rewrite bind_run /= bind_run.
  case: (isSome (Py.dict_get (_packages st) s)) => /=.
    rewrite bind_run /=.
    by case: (Py.dict_get (_packages st) s) => [p|].
  rewrite bind_run /= bind_run Hvi /ret /= bind_run json_load_run /=.
  case: (Py.dict_get (disk_files d) (file meta)) => [f|] //=.
  case: (file_json f) => [p|] //=.
  by rewrite ?bind_run /= DictFacts.dict_get_set String.eqb_refl.
Qed.

Lemma load_package_noint s d st :
  validate_integrity st = false ->
  let '(_, _, r) := load_package s d st in no_integrity_error r.
Proof.
  move=> Hvi; rewrite /load_package bind_run manifest_run.
  case: (_manifest st) => [m|] /=.
    by move: (load_package_loop_noint s m d Hvi); case: (load_package_loop s m d st) => [[? ?] ?].
  case: (disk_manifest d) => [m|] //=.
  have Hvi1 : validate_integrity
      (mk_loader (validate_integrity st) (Some m) (_packages st) (_blocks_cache st)) = false by [].
  move: (load_package_loop_noint s m d Hvi1).
  by case: (load_package_loop _ _ _ _) => [[? ?] ?].
Qed.

(** X6. On a loader built with [validate_integrity=False], none of
    [load_all_packages], [load_package], [reload], the block sources
    ([_all_blocks], [get_blocks_by_segment]) and the [manifest] property
    raises [IntegrityError]. *)
Theorem no_integrity_error_without_validation o d st :
  validate_integrity st = false ->
  let '(_, _, r) := run_op o d st in no_integrity_error r.
Proof.
  move=> Hvi; case: o => [|s||seg|] /=.
  - exact/no_int_bind_unit/load_all_noint.
  - exact/no_int_bind_unit/load_package_noint.
  - rewrite /reload bind_run /reset_caches /=.
    have Hvi0 : validate_integrity (mk_loader (validate_integrity st) None [::] None) = false by [].
    move: (no_int_bind_unit (load_all_noint d Hvi0)).
    by case: (bind load_all_packages _ d _) => [[? ?] ?].
  - apply: no_int_bind_unit.
    have [w Hw] := LoaderRun.all_blocks_run d st.
    case: seg => [s|] /=; last by rewrite Hw.
    case: (String.eqb s ""); first by rewrite Hw.
    rewrite /get_blocks_by_segment bind_run /= bind_run.
    have Htail : forall st1,
        let '(_, _, r) :=
          (pk' <- gets _packages ;;
           match Py.dict_get pk' s with
           | Some p => ret (pkg_blocks p)
           | None => raise (KeyError s)
           end) d st1 in no_integrity_error r.
      by move=> st1; rewrite bind_run /=; case: (Py.dict_get _ _).
    case: (isSome (Py.dict_get (_packages st) s)) => /=.
      by move: (Htail st); case: (_ d st) => [[? ?] ?].
    rewrite bind_run.
    move: (load_package_noint s d Hvi).
    case: (load_package s d st) => [[st1 w1] [p|e]] H1 //=.
    by move: (Htail st1); case: (_ d st1) => [[? ?] ?].
  - apply: no_int_bind_unit; rewrite manifest_run.
    case: (_manifest st) => [m|] //=.
    by case: (disk_manifest d).
Qed.

Lemma no_integrity_error_without_validation_witness :
  validate_integrity (init_loader false) = false /\
  let '(_, _, r) := run_op OpLoadAll disk_tampered (init_loader false) in no_integrity_error r.
Proof.
  have H : validate_integrity (init_loader false) = false by reflexivity.
  split; [exact H|].
  exact (@no_integrity_error_without_validation OpLoadAll disk_tampered _ H).
Defined.

(** X8. When every descriptor of the manifest on disk loads and its
    segments are distinct, [reload] succeeds, caches that manifest, and
    [_all_blocks] then returns the packages' blocks in manifest order,
    whatever was loaded before. *)
Theorem reload_blocks_in_manifest_order d st m :
  disk_manifest d = Some m -> distinct_segments m ->
  all (fun meta => isSome (meta_loads (validate_integrity st) d meta)) m ->
  let '(st', _, r) := reload d st in
  r = Ok tt /\ _manifest st' = Some m /\
  exists w, _all_blocks d st' =
            (with_cache st', w, Ok (flatten (map (meta_blocks (validate_integrity st) d) m))).
Proof.
  move=> Hm Hd Hall.
  have Hm0 : current_manifest d (init_loader (validate_integrity st)) = Some m
    by rewrite /current_manifest /= Hm.
  have Hnd : List.NoDup (map fst (_packages (init_loader (validate_integrity st))))
    by constructor.
  have [[w1 Hw1] _] := @load_all_twice_run d (init_loader (validate_integrity st)) m Hm0 Hall Hnd.
  rewrite /reload bind_run /reset_caches /= bind_run.
  change (mk_loader (validate_integrity st) None [::] None) with (init_loader (validate_integrity st)).
  rewrite Hw1 /=.
  split; first by [].
  split; first by [].
  set st1 := mk_loader _ _ _ _.
  have [w Hw] := LoaderRun.all_blocks_run d st1.
  exists w; rewrite Hw /st1 /state_blocks /= pk_after_fresh //.
  exact: all_predT.
Qed.

Lemma reload_blocks_in_manifest_order_witness :
  disk_manifest disk1 = Some [:: metaA; metaB] /\ distinct_segments [:: metaA; metaB] /\
  all (fun meta => isSome (meta_loads (validate_integrity st_b_first) disk1 meta)) [:: metaA; metaB] /\
  let '(st', _, r) := reload disk1 st_b_first in
  r = Ok tt /\ _manifest st' = Some [:: metaA; metaB] /\
  exists w, _all_blocks disk1 st' =
            (with_cache st', w, Ok (flatten (map (meta_blocks (validate_integrity st_b_first) disk1)
                                                 [:: metaA; metaB]))).
Proof.
  have H1 : disk_manifest disk1 = Some [:: metaA; metaB] by reflexivity.
  have H2 : distinct_segments [:: metaA; metaB] by vm_compute; reflexivity.
  have H3 : all (fun meta => isSome (meta_loads (validate_integrity st_b_first) disk1 meta))
                [:: metaA; metaB] by vm_compute; reflexivity.
  split; [exact H1|]; split; [exact H2|]; split; [exact H3|].
  exact (@reload_blocks_in_manifest_order disk1 st_b_first _ H1 H2 H3).
Defined.

Lemma load_package_loop_fresh s metas d st :
  Py.dict_get (_packages st) s = None ->
  let '(st', _, r) := load_package_loop s metas d st in
  forall p, r = Ok p ->
  st' = mk_loader (validate_integrity st) (_manifest st) (Py.dict_set (_packages st) s p) None.
Proof.
  move=> Hn; elim: metas => [|meta rest IH] /=.
    rewrite bind_run /list_segments bind_run manifest_run.
    case: (_manifest st) => [m|] //=.
    by case: (disk_manifest d) => [m|].
  case: (String.eqb (segmento meta) s) => //.
  rewrite bind_run /= bind_run Hn /= bind_run /= bind_run.
  case Hvi: (validate_integrity st).
    rewrite validate_hash_run /=.
    case Ef: (Py.dict_get (disk_files d) (file meta)) => [f|] //=.
    case: (String.eqb _ _) => //=.
    rewrite bind_run json_load_run Ef /=.
    case: (file_json f) => [p|] //=.
    rewrite ?bind_run /= DictFacts.dict_get_set String.eqb_refl /=.
    by move=> p' [<-]; rewrite Hvi.
  rewrite /ret /= bind_run json_load_run /=.
  case: (Py.dict_get (disk_files d) (file meta)) => [f|] //=.
  case: (file_json f) => [p|] //=.
  rewrite ?bind_run /= DictFacts.dict_get_set String.eqb_refl /=.
  by move=> p' [<-]; rewrite Hvi.
Qed.

Lemma load_package_fresh s d st :
  Py.dict_get (_packages st) s = None ->
  let '(st', _, r) := load_package s d st in
  forall p, r = Ok p ->
  validate_integrity st' = validate_integrity st /\
  _packages st' = Py.dict_set (_packages st) s p /\ _blocks_cache st' = None.
Proof.
  move=> Hn; rewrite /load_package bind_run manifest_run.
  case: (_manifest st) => [m|] /=.
    move: (load_package_loop_fresh m d Hn).
    by case: (load_package_loop s m d st) => [[st' w] r] H p /H ->.
  case: (disk_manifest d) => [m|] //=.
  have Hn1 : Py.dict_get (_packages
      (mk_loader (validate_integrity st) (Some m) (_packages st) (_blocks_cache st))) s = None
    by [].
  move: (load_package_loop_fresh m d Hn1).
  by case: (load_package_loop _ _ _ _) => [[st' w] r] H p /H ->.
Qed.

(** X9. When [get_blocks_by_segment(segment)] returns, it returns the
    blocks of the package now held for [segment]; either that package was
    already held, and the call changes nothing, or it was not, and the
    call added exactly it to the package dict and reset the block cache. *)
Theorem get_blocks_by_segment_result s d st :
  let '(st', w, r) := get_blocks_by_segment s d st in
  forall bs, r = Ok bs ->
  exists p, Py.dict_get (_packages st') s = Some p /\ bs = pkg_blocks p /\
    ((Py.dict_get (_packages st) s = Some p /\ st' = st /\ w = [::]) \/
     (Py.dict_get (_packages st) s = None /\
      validate_integrity st' = validate_integrity st /\
      _packages st' = Py.dict_set (_packages st) s p /\ _blocks_cache st' = None)).
Proof.
  rewrite /get_blocks_by_segment bind_run /= bind_run.
  case Hs: (Py.dict_get (_packages st) s) => [p|] /=.
    rewrite bind_run /= Hs /= => bs [<-].
    by exists p; split; [|split; [|left]].
  rewrite bind_run.
  move: (@load_package_fresh s d st Hs).
  case: (load_package s d st) => [[st1 w1] [p|e]] H //=.
  have [Hvi [Hpk Hc]] := H p erefl.
  rewrite bind_run /= Hpk DictFacts.dict_get_set String.eqb_refl /= => bs [<-].
  exists p; split; first by rewrite Hpk DictFacts.dict_get_set String.eqb_refl.
  by split; [|right].
Qed.

Lemma outcome_bind_raise {A B} (m : M A) (k : A -> M B) d st e :
  outcome_of m d st = Raise e -> outcome_of (bind m k) d st = Raise e.
Proof. by rewrite /outcome_of bind_run; case: (m d st) => [[? ?] [?|?]] // [->]. Qed.

(** X10. For a non-empty segment name that the manifest does not list and
    under which no package is held, [get_blocks_by_segment] and the
    filtering queries on that segment ([get_regulatory_blocks],
    [get_blocks_by_tag], [get_blocks_by_persona], [get_blocks_by_complexity]
    with a valid complexity, [get_top_blocks_by_priority], [search_blocks],
    [prepare_for_vectorization]) raise the [KnowledgeLoaderError] of
    [load_package]. *)
Theorem segment_queries_unknown s d st m :
  s <> "" -> current_manifest d st = Some m ->
  ~~ has (fun meta => String.eqb (segmento meta) s) m ->
  Py.dict_get (_packages st) s = None ->
  (let e := KnowledgeLoaderError (SegmentNotInManifest s (map segmento m)) in
  outcome_of (get_blocks_by_segment s) d st = Raise e /\
  outcome_of (get_regulatory_blocks (Some s)) d st = Raise e /\
  (forall tag, outcome_of (get_blocks_by_tag tag (Some s)) d st = Raise e) /\
  (forall persona, outcome_of (get_blocks_by_persona persona (Some s)) d st = Raise e) /\
  (forall c, has (String.eqb c) valid_complexities ->
     (get_blocks_by_complexity c (Some s) d st).2 = VRaise e) /\
  (forall n, outcome_of (get_top_blocks_by_priority n (Some s)) d st = Raise e) /\
  (forall q k, outcome_of (search_blocks q (Some s) k) d st = Raise e) /\
  outcome_of (prepare_for_vectorization (Some s)) d st = Raise e).
Proof.
  move=> Hs Hm Hn Hp e.
  have Hs' : String.eqb s "" = false by apply/String.eqb_neq.
  have Hg : outcome_of (get_blocks_by_segment s) d st = Raise e.
    rewrite /outcome_of /get_blocks_by_segment bind_run /= bind_run Hp /= bind_run.
    move: (load_package_unknown_run Hm Hn).
    by case: (load_package s d st) => [[? ?] ?] [->].
  have Hq : outcome_of (query_source (Some s)) d st = Raise e by rewrite /query_source Hs'.
  split; first exact: Hg.
  split; first exact: outcome_bind_raise.
  split; first by move=> tag; exact: outcome_bind_raise.
  split; first by move=> persona; exact: outcome_bind_raise.
  split.
    move=> c Hc.
    have [st' [w Hqs]] : exists st' w, query_source (Some s) d st = (st', w, Raise e).
      by move: Hq; rewrite /outcome_of; case: (query_source _ d st) => [[st' w] r] ->; exists st', w.
    by rewrite /get_blocks_by_complexity Hc bind_run Hqs.
  split; first by move=> n; exact: outcome_bind_raise.
  split; first by move=> q k; exact: outcome_bind_raise.
  exact: outcome_bind_raise.
Qed.

Lemma segment_queries_unknown_witness :
  "C" <> "" /\ current_manifest disk1 (init_loader true) = Some [:: metaA; metaB] /\
  ~~ has (fun meta => String.eqb (segmento meta) "C") [:: metaA; metaB] /\
  Py.dict_get (_packages (init_loader true)) "C" = None /\
  (let e := KnowledgeLoaderError (SegmentNotInManifest "C" (map segmento [:: metaA; metaB])) in
  outcome_of (get_blocks_by_segment "C") disk1 (init_loader true) = Raise e /\
  outcome_of (get_regulatory_blocks (Some "C")) disk1 (init_loader true) = Raise e /\
  (forall tag, outcome_of (get_blocks_by_tag tag (Some "C")) disk1 (init_loader true) = Raise e) /\
  (forall persona, outcome_of (get_blocks_by_persona persona (Some "C")) disk1 (init_loader true)
                   = Raise e) /\
  (forall c, has (String.eqb c) valid_complexities ->
     (get_blocks_by_complexity c (Some "C") disk1 (init_loader true)).2 = VRaise e) /\
  (forall n, outcome_of (get_top_blocks_by_priority n (Some "C")) disk1 (init_loader true) = Raise e) /\
  (forall q k, outcome_of (search_blocks q (Some "C") k) disk1 (init_loader true) = Raise e) /\
  outcome_of (prepare_for_vectorization (Some "C")) disk1 (init_loader true) = Raise e).
Proof.
  have H1 : "C" <> "" by discriminate.
  have H2 : current_manifest disk1 (init_loader true) = Some [:: metaA; metaB] by reflexivity.
  have H3 : ~~ has (fun meta => String.eqb (segmento meta) "C") [:: metaA; metaB]
    by vm_compute; reflexivity.
  have H4 : Py.dict_get (_packages (init_loader true)) "C" = None by reflexivity.
  split; [exact H1|]; split; [exact H2|]; split; [exact H3|]; split; [exact H4|].
  exact (@segment_queries_unknown "C" disk1 (init_loader true) _ H1 H2 H3 H4).
Defined.

(** X13. Once a package is loaded, [get_statistics] counts what the other
    queries return: [total_blocks_loaded] is the number of blocks of
    [_all_blocks], [vector_ready_blocks] the length of
    [prepare_for_vectorization()] when it returns,
    [total_segments_available] the length of [list_segments()], and
    [segments] lists the loaded segments in the dict's order, their number
    being [segments_loaded]. *)
Theorem get_statistics_consistent d st :
  _packages st <> [::] ->
  let '(_, _, r) := get_statistics d st in
  forall stats, r = Ok stats ->
  total_blocks_loaded stats = size (state_blocks st) /\
  (forall docs, outcome_of (prepare_for_vectorization None) d st = Ok docs ->
                vector_ready_blocks stats = size docs) /\
  (forall segs, outcome_of list_segments d st = Ok segs ->
                total_segments_available stats = size segs) /\
  segments stats = map fst (_packages st) /\ segments_loaded stats = size (segments stats).
Proof.
  move=> Hpk; have [w Hw] := LoaderRun.all_blocks_run d st.
  rewrite /get_statistics bind_run /=.
  have -> : (if _packages st is [::] then ret [::] else _all_blocks) = _all_blocks
    by case: (_packages st) Hpk.
  rewrite bind_run Hw bind_run manifest_run /=.
  case Em: (_manifest st) => [m|] /=.
    move=> stats [<-] /=.
    split; first by [].
    split.
      move=> docs; rewrite /outcome_of /prepare_for_vectorization bind_run /= Hw /=.
      rewrite Vectorize.vector_docs_filter.
      case: (all _ _) => //= -[<-].
      by rewrite size_map size_filter.
    split; last by rewrite size_map.
    by move=> segs; rewrite /outcome_of /list_segments bind_run manifest_run Em /= => -[<-]; rewrite size_map.
  case Ed: (disk_manifest d) => [m|] //=.
  move=> stats [<-] /=.
  split; first by [].
  split.
    move=> docs; rewrite /outcome_of /prepare_for_vectorization bind_run /= Hw /=.
    rewrite Vectorize.vector_docs_filter.
    case: (all _ _) => //= -[<-].
    by rewrite size_map size_filter.
  split; last by rewrite size_map.
  by move=> segs; rewrite /outcome_of /list_segments bind_run manifest_run Em Ed /= => -[<-]; rewrite size_map.
Qed.

Lemma get_statistics_consistent_witness :
  _packages st_loaded <> [::] /\
  let '(_, _, r) := get_statistics disk1 st_loaded in
  forall stats, r = Ok stats ->
  total_blocks_loaded stats = size (state_blocks st_loaded) /\
  (forall docs, outcome_of (prepare_for_vectorization None) disk1 st_loaded = Ok docs ->
                vector_ready_blocks stats = size docs) /\
  (forall segs, outcome_of list_segments disk1 st_loaded = Ok segs ->
                total_segments_available stats = size segs) /\
  segments stats = map fst (_packages st_loaded) /\ segments_loaded stats = size (segments stats).
Proof.
  have H : _packages st_loaded <> [::] by vm_compute; discriminate.
  split; [exact H|].
  exact (@get_statistics_consistent disk1 st_loaded H).
Defined.

End LoaderMore.

(* ------------------------------------------------------------------ *)
(** ** More on the delta detector *)
(* ------------------------------------------------------------------ *)

Module DeltaMoreProofs.
Import Delta DeltaMore DeltaProofs Scenario.

Lemma Qlt_bool_iff x y : Qlt_bool x y = true <-> (x < y)%Q.
Proof.
  rewrite /Qlt_bool; split.
    by move/negbTE => H; apply/Qnot_le_lt => /Qle_bool_iff; rewrite H.
  by move=> H; apply/negbT/negP => /Qle_bool_iff /Qle_not_lt.
Qed.

Lemma all_In {T} (a : pred T) s : (forall x, List.In x s -> a x) -> all a s.
Proof.
  elim: s => [|x s IH] //= H.
  apply/andP; split; first by apply: H; left.
  by apply: IH => y Hy; apply: H; right.
Qed.

Lemma all_filter_sub {T} (p a : pred T) s : all a s -> all a (filter p s).
Proof. by elim: s => [|x s IH] //= /andP [Hx Hs]; case: (p x) => /=; rewrite ?Hx IH. Qed.

(** The running maximum of [has_significant_changes] is at least its
    start and at least every item. *)
Lemma foldl_max_ge (f : index_entry -> Q) m0 l :
  (m0 <= foldl (fun m e => if Qlt_bool m (f e) then f e else m) m0 l)%Q /\
  forall e, List.In e l -> (f e <= foldl (fun m e => if Qlt_bool m (f e) then f e else m) m0 l)%Q.
Proof.
  elim: l m0 => [|e l IH] m0 /=; first by split; [exact: Qle_refl | case].
  set m1 := if Qlt_bool m0 (f e) then f e else m0.
  have [H1 H2] := IH m1.
  have Hm0 : (m0 <= m1)%Q.
    rewrite /m1; case E: (Qlt_bool m0 (f e)); last exact: Qle_refl.
    by apply: Qlt_le_weak; apply/Qlt_bool_iff.
  have Hfe : (f e <= m1)%Q.
    rewrite /m1; case E: (Qlt_bool m0 (f e)); first exact: Qle_refl.
    by apply: Qnot_lt_le => /Qlt_bool_iff; rewrite E.
  split; first exact: Qle_trans Hm0 H1.
  by move=> e' [<-|He']; [exact: Qle_trans Hfe H1 | exact: H2].
Qed.

(** [py_max] picks its default or one of the items. *)
Lemma py_max_all (P : pred Q) xs d : P d -> all P xs -> P (py_max xs d).
Proof.
  case: xs => [|x xs] //= _ /andP [Hx Hxs].
  elim: xs x Hx Hxs => [|y xs IH] x Hx //= /andP [Hy Hxs].
  by apply: IH => //; case: (Qlt_bool x y).
Qed.

(** Once the running maximum of the similarities exceeds the threshold,
    [has_significant_changes] answers [False]. *)
Lemma significant_false_of_max det nc :
  content_text nc <> "" ->
  (similarity_threshold det <
   foldl (fun m e => if Qlt_bool m (_calculate_similarity (content_text nc) (ie_content e))
                     then _calculate_similarity (content_text nc) (ie_content e) else m)
         0%Q (Py.dict_values (knowledge_index det)))%Q ->
  has_significant_changes det nc = false.
Proof.
  move=> Ht Hlt; rewrite /has_significant_changes.
  case: nc Ht Hlt => [|kv nc'] Ht Hlt; first by [].
  have -> : String.eqb (content_text (kv :: nc')) "" = false by apply/String.eqb_neq.
  case: (has _ _) => //.
  by move/Qlt_bool_iff: Hlt => /= ->.
Qed.

(** X14. When [compare_with_block] reports a duplicate ([is_duplicate]),
    [has_significant_changes] is [False] for that same content; an
    unknown id gives the error result exactly when the id is not in the
    index. *)
Theorem compare_duplicate_not_significant det s k :
  match compare_with_block det s k with
  | BlockNotFound k' => k' = k /\ Py.dict_get (knowledge_index det) k = None
  | Compared c =>
      cmp_block_id c = k /\ isSome (Py.dict_get (knowledge_index det) k) /\
      (cmp_is_duplicate c -> has_significant_changes det [:: ("content", s)] = false)
  end.
Proof.
  rewrite /compare_with_block.
  case Hk: (Py.dict_get (knowledge_index det) k) => [e|]; last by split.
  split; first by [].
  split; first by [].
  move=> /Qlt_bool_iff Hlt.
  case Hs: (String.eqb s "").
    move/String.eqb_eq: Hs => ->.
    by rewrite /has_significant_changes /content_text /=.
  have Htext : content_text [:: ("content", s)] = s by rewrite /content_text /= Hs.
  apply: significant_false_of_max; first by rewrite Htext; apply/String.eqb_neq.
  rewrite Htext.
  have [_ H2] := foldl_max_ge (fun e => _calculate_similarity s (ie_content e))
                   0%Q (Py.dict_values (knowledge_index det)).
  exact: Qlt_le_trans Hlt (H2 e (DictMore.dict_get_In_values Hk)).
Qed.

(** X15. [detect_delta_details] reports [empty] exactly for an empty text;
    otherwise [similar_blocks] holds at most 5 blocks, each of similarity
    above 0.5, sorted by decreasing similarity, and a [max_similarity]
    above the detector's threshold comes with [has_changes] false. *)
Theorem detect_delta_details_report det nc :
  match detect_delta_details det nc with
  | DeltaEmpty => content_text nc = ""
  | DeltaAnalyzed r =>
      content_text nc <> "" /\
      size (similar_blocks r) <= 5 /\
      all (fun x => Qlt_bool (1 # 2) (sim_similarity x)) (similar_blocks r) /\
      sorted similarity_desc (similar_blocks r) /\
      (Qlt_bool (similarity_threshold det) (max_similarity r) -> has_changes r = false)
  end.
Proof.
  rewrite /detect_delta_details.
  case Ht: (String.eqb (content_text nc) ""); first exact/String.eqb_eq.
  move/String.eqb_neq: Ht => Ht /=.
  set srt := sort similarity_desc (similar_entries det (content_text nc)).
  have Hall : all (fun x => Qlt_bool (1 # 2) (sim_similarity x)) srt
    by rewrite /srt all_sort /similar_entries; exact: filter_all.
  have Hsrt : sorted similarity_desc srt by apply: sort_sorted; exact: desc_by_total.
  split; first by [].
  split; first by rewrite size_take; case: ifP => // /negbT; rewrite -leqNgt.
  split.
    by move: Hall; rewrite -{1}(cat_take_drop 5 srt) all_cat => /andP [].
  split; first exact: take_sorted.
  move=> /Qlt_bool_iff Hlt; apply: significant_false_of_max => //.
  set mx := foldl _ 0%Q _.
  have [H1 H2] := foldl_max_ge (fun e => _calculate_similarity (content_text nc) (ie_content e))
                    0%Q (Py.dict_values (knowledge_index det)).
  have Hle : Qle_bool (py_max (map sim_similarity srt) 0%Q) mx.
    apply: (@py_max_all (fun q => Qle_bool q mx)); first exact/Qle_bool_iff.
    rewrite all_map /srt all_sort /similar_entries; apply: all_filter_sub.
    rewrite all_map; apply: all_In => kv Hkv /=.
    apply/Qle_bool_iff; apply: H2.
    exact: (List.in_map snd _ _ Hkv).
  exact: Qlt_le_trans Hlt (proj1 (Qle_bool_iff _ _) Hle).
Qed.

Lemma In_take {T} (x : T) n s : List.In x (take n s) -> List.In x s.
Proof. by elim: s n => [|y s IH] [|n] //= [->|/IH]; [left | right]. Qed.

Lemma NoDup_take {T} n (s : seq T) : List.NoDup s -> List.NoDup (take n s).
Proof.
  elim: s n => [|y s IH] [|n] H /=; try by constructor.
  inversion H; subst.
  constructor; last exact: IH.
  by move=> Hin; apply: H2; apply: In_take Hin.
Qed.

Lemma dedup_from_nodup seen xs :
  List.NoDup (Py.dedup_from seen xs) /\
  forall x, List.In x (Py.dedup_from seen xs) -> ~~ has (String.eqb x) seen.
Proof.
  elim: xs seen => [|x xs IH] seen /=; first by split; [constructor | case].
  case Hx: (has (String.eqb x) seen); first exact: IH.
  have [Hnd Hin] := IH (x :: seen).
  split.
    constructor; last exact: Hnd.
    by move/Hin => /=; rewrite String.eqb_refl.
  move=> y [<-|/Hin /=]; first by rewrite Hx.
  by case/norP.
Qed.

(** X16. [_extract_keywords(text, top_n)] returns at most [top_n] keywords,
    no two of them equal. *)
Theorem extract_keywords_distinct text n :
  size (_extract_keywords text n) <= n /\ List.NoDup (_extract_keywords text n).
Proof.
  rewrite /_extract_keywords; split.
    by rewrite size_take; case: ifP => // /negbT; rewrite -leqNgt.
  apply: NoDup_take; exact: (proj1 (dedup_from_nodup _ _)).
Qed.

Lemma build_index_flat files :
  _build_knowledge_index files = foldl index_block [::] (flatten (map (fun f => odflt [::] f) files)).
Proof.
  rewrite /_build_knowledge_index; move: [::].
  elim: files => [|f files IH] idx //=.
  by rewrite foldl_cat IH; case: f.
Qed.

Lemma index_block_get idx b k :
  Py.dict_get (index_block idx b) k =
  if String.eqb (odflt "" (lb_id b)) k && negb (String.eqb k "") then Some (entry_of b)
  else Py.dict_get idx k.
Proof.
  rewrite /index_block.
  case Hb: (String.eqb (odflt "" (lb_id b)) "").
    move/String.eqb_eq: Hb => ->.
    case Hk: (String.eqb k "").
      by rewrite andbF.
    by rewrite String.eqb_sym Hk.
  rewrite DictFacts.dict_get_set.
  case Hk: (String.eqb k (odflt "" (lb_id b))).
    move/String.eqb_eq: Hk => Hk.
    rewrite -Hk in Hb.
    by rewrite -Hk String.eqb_refl Hb.
  by rewrite (String.eqb_sym (odflt "" (lb_id b)) k) Hk.
Qed.

(** X17. In the index [DeltaDetector] builds, the entry under an id is the
    one made of the last block with that id over the globbed files in
    order (blocks without an id are skipped), and no id appears twice. *)
Theorem knowledge_index_lookup files k :
  Py.dict_get (knowledge_index (init_detector files)) k = last_entry_with_id files k /\
  List.NoDup (map fst (knowledge_index (init_detector files))).
Proof.
  rewrite /init_detector /last_entry_with_id /= build_index_flat.
  have Hget : forall bs idx,
      Py.dict_get (foldl index_block idx bs) k =
      foldl (fun o b => if String.eqb (odflt "" (lb_id b)) k && negb (String.eqb k "")
                        then Some (entry_of b) else o) (Py.dict_get idx k) bs.
    by elim=> [|b bs IH] idx //=; rewrite IH index_block_get.
  split; first exact: Hget.
  apply: (@foldl_inv _ _ (fun idx => List.NoDup (map fst idx))); last by constructor.
  move=> idx b H; rewrite /index_block.
  by case: (String.eqb _ _) => //; exact: DictMore.dict_set_nodup.
Qed.

(** X18. [has_significant_changes] depends on the text only through its
    normal form [text.lower().strip()]: two contents with non-empty texts
    of one normal form get the same answer. *)
Theorem has_significant_changes_normal_form det nc1 nc2 :
  content_text nc1 <> "" -> content_text nc2 <> "" ->
  Py.strip (Py.lower (content_text nc1)) = Py.strip (Py.lower (content_text nc2)) ->
  has_significant_changes det nc1 = has_significant_changes det nc2.
Proof.
  move=> H1 H2 Hn; rewrite /has_significant_changes.
  case: nc1 H1 Hn => [|kv1 nc1] H1 Hn; first by [].
  case: nc2 H2 Hn => [|kv2 nc2] H2 Hn; first by [].
  set t1 := content_text (kv1 :: nc1) in H1 Hn *.
  set t2 := content_text (kv2 :: nc2) in H2 Hn *.
  have -> : String.eqb t1 "" = false by apply/String.eqb_neq.
  have -> : String.eqb t2 "" = false by apply/String.eqb_neq.
  have Hh : _hash_text t1 = _hash_text t2 by rewrite /_hash_text Hn.
  have Hs : forall x, _calculate_similarity t1 x = _calculate_similarity t2 x.
    move=> x; rewrite /_calculate_similarity.
    have -> : String.eqb t1 "" = false by apply/String.eqb_neq.
    have -> : String.eqb t2 "" = false by apply/String.eqb_neq.
    by rewrite /= Hn.
  rewrite Hh.
  case: (has _ _) => //.
  have -> : forall m0 l,
      foldl (fun m e => let s := _calculate_similarity t1 (ie_content e) in
                        if Qlt_bool m s then s else m) m0 l =
      foldl (fun m e => let s := _calculate_similarity t2 (ie_content e) in
                        if Qlt_bool m s then s else m) m0 l.
    by move=> m0 l; elim: l m0 => [|e l IH] m0 //=; rewrite Hs IH.
  done.
Qed.

Lemma has_significant_changes_normal_form_witness :
  content_text [:: ("content", "Aliquota do IBS")] <> "" /\
  content_text [:: ("text", "  ALIQUOTA DO IBS ")] <> "" /\
  Py.strip (Py.lower (content_text [:: ("content", "Aliquota do IBS")])) =
  Py.strip (Py.lower (content_text [:: ("text", "  ALIQUOTA DO IBS ")])) /\
  has_significant_changes (init_detector files_one) [:: ("content", "Aliquota do IBS")] =
  has_significant_changes (init_detector files_one) [:: ("text", "  ALIQUOTA DO IBS ")].
Proof.
  have H1 : content_text [:: ("content", "Aliquota do IBS")] <> "" by vm_compute; discriminate.
  have H2 : content_text [:: ("text", "  ALIQUOTA DO IBS ")] <> "" by vm_compute; discriminate.
  have H3 : Py.strip (Py.lower (content_text [:: ("content", "Aliquota do IBS")])) =
            Py.strip (Py.lower (content_text [:: ("text", "  ALIQUOTA DO IBS ")]))
    by vm_compute; reflexivity.
  split; [exact H1|]; split; [exact H2|]; split; [exact H3|].
  exact (@has_significant_changes_normal_form (init_detector files_one) _ _ H1 H2 H3).
Defined.

End DeltaMoreProofs.
